(** * blog-backend: the posts controller ([src/api/posts/posts.ctrl.js]),
    its router ([src/api/posts/index.js]) and the Post model.

    The controller is embedded as pure functions over an explicit store
    (the [posts] collection, a finite map from ObjectId to document).
    Every handler returns the response it leaves in the Koa context, the
    store after it ran and the list of store calls it issued.

    JavaScript values are modelled as follows.
    - A string is a [string]; one [ascii] stands for one code unit, so
      [String.length] is the [.length] of the source.
    - A number is [NaN] or an exact integer [Num z] (no rounding: the
      counters and page numbers of this program stay far below 2^53).
    - [undefined] is [None] of an [option].

    Libraries the controller imports but the repository does not contain
    (sanitize-html, the MongoDB driver's treatment of a NaN skip) are
    operations of a type class; the theorems hold for every instance.
    Failures of the connection to the store are not modelled: a store
    call fails only for a reason the call itself carries (a duplicate
    [_id], a value that cannot be cast, a rejected skip). The upload
    handler, which works on files, is left out. *)

From Stdlib Require Import ZArith NArith Lia Ascii.
From stdpp Require Import gmap strings list sorting.

Local Open Scope Z_scope.

(* ===================================================================== *)
(** ** JavaScript primitives used by the controller *)
(* ===================================================================== *)

Module Js.

(** A JavaScript number, restricted to what the controller computes
    with: integers and NaN. *)
Inductive number : Type :=
| NaN
| Num (z : Z).

#[global] Instance number_eq_dec : EqDecision number.
Proof. solve_decision. Defined.

(** [a < b]: every comparison with NaN is false. *)
Definition lt (a b : number) : bool :=
  match a, b with
  | Num x, Num y => bool_decide (x < y)
  | _, _ => false
  end.

Definition sub (a b : number) : number :=
  match a, b with
  | Num x, Num y => Num (x - y)
  | _, _ => NaN
  end.

Definition mul (a b : number) : number :=
  match a, b with
  | Num x, Num y => Num (x * y)
  | _, _ => NaN
  end.

(** [Math.ceil(n / d)] for integers [n] and a positive [d]. *)
Definition ceil_div (n d : Z) : Z :=
  if bool_decide (n mod d = 0) then n / d else n / d + 1.

(** [x || dflt] on an optional string: [undefined] and [''] are falsy. *)
Definition or_default (x : option string) (dflt : string) : string :=
  match x with
  | Some (String c s) => String c s
  | _ => dflt
  end.

(** Truthiness of an optional string. *)
Definition truthy (x : option string) : bool :=
  match x with
  | Some (String _ _) => true
  | _ => false
  end.

(** [String(x)] as applied by [RegExp.prototype.exec] to its argument. *)
Definition to_string (x : option string) : string :=
  match x with
  | Some s => s
  | None => "undefined"
  end.

(** [s.slice(0, n)]. *)
Fixpoint slice0 (n : nat) (s : string) : string :=
  match n, s with
  | S n', String c s' => String c (slice0 n' s')
  | _, _ => ""
  end.

(** [s] without its first [n] code units. *)
Fixpoint drop_str (n : nat) (s : string) : string :=
  match n, s with
  | S n', String _ s' => drop_str n' s'
  | _, _ => s
  end.

(** [s.startsWith(p)]. *)
Fixpoint starts_with (p s : string) : bool :=
  match p, s with
  | EmptyString, _ => true
  | String a p', String b s' => bool_decide (a = b) && starts_with p' s'
  | String _ _, EmptyString => false
  end.

(** *** parseInt(string, 10) *)

(** StrWhiteSpaceChar, for code units below 256. *)
Definition is_white (c : ascii) : bool :=
  let n := Ascii.nat_of_ascii c in
  bool_decide (n = 9 ∨ n = 10 ∨ n = 11 ∨ n = 12 ∨ n = 13 ∨ n = 32 ∨ n = 160)%nat.

Fixpoint trim_start (s : string) : string :=
  match s with
  | String c s' => if is_white c then trim_start s' else s
  | EmptyString => s
  end.

Definition digit_of (c : ascii) : option Z :=
  let n := Z.of_nat (Ascii.nat_of_ascii c) in
  if bool_decide (48 <= n <= 57) then Some (n - 48) else None.

(** Reads the longest prefix of decimal digits; [acc] is the value of the
    digits read so far and [seen] says whether there was one. *)
Fixpoint digits (acc : Z) (seen : bool) (s : string) : option Z :=
  match s with
  | String c s' =>
      match digit_of c with
      | Some d => digits (10 * acc + d) true s'
      | None => if seen then Some acc else None
      end
  | EmptyString => if seen then Some acc else None
  end.

Definition parseInt (input : string) : number :=
  let s := trim_start input in
  let '(sign, s) :=
    match s with
    | String "-"%char s' => (-1, s')
    | String "+"%char s' => (1, s')
    | _ => (1, s)
    end in
  match digits 0 false s with
  | Some z => Num (sign * z)
  | None => NaN
  end.

(** *** The fragment of regular expressions [imgReg] is written in *)

Inductive atom : Type :=
| Lit (s : string)          (* a literal run of characters *)
| StarNot (c : ascii).      (* [^c]*, greedy *)

(** Length of the longest prefix of [s] without [c]. *)
Fixpoint run_not (c : ascii) (s : string) : nat :=
  match s with
  | String a s' => if bool_decide (a = c) then 0%nat else S (run_not c s')
  | EmptyString => 0%nat
  end.

(** Tries [k] repetitions, then [k-1], ... down to none. *)
Fixpoint backtrack (rest : nat → option string) (k : nat) : option (nat * string) :=
  match rest k with
  | Some m => Some (k, m)
  | None =>
      match k with
      | O => None
      | S k' => backtrack rest k'
      end
  end.

(** The text matched by the atoms [re] at the start of [s], if any. *)
Fixpoint match_here (re : list atom) (s : string) : option string :=
  match re with
  | [] => Some ""
  | Lit l :: re' =>
      if starts_with l s
      then (λ m, l +:+ m) <$> match_here re' (drop_str (String.length l) s)
      else None
  | StarNot c :: re' =>
      (λ km, slice0 km.1 s +:+ km.2)
        <$> backtrack (λ k, match_here re' (drop_str k s)) (run_not c s)
  end.

(** [re.exec(s)] with [lastIndex = 0]: the leftmost match, [null] if
    there is none. *)
Fixpoint exec (re : list atom) (s : string) : option string :=
  match match_here re s with
  | Some m => Some m
  | None =>
      match s with
      | String _ s' => exec re s'
      | EmptyString => None
      end
  end.

End Js.

(* ===================================================================== *)
(** ** ObjectId: the identifiers of the store (mongoose.Types.ObjectId) *)
(* ===================================================================== *)

(** An ObjectId is a 12-byte value, kept here as the natural number its
    bytes spell; the order of the store on [_id] is the order of [N]. *)
Abbreviation ObjectId := N (only parsing).

Module ObjectIds.

Definition hex_value (c : ascii) : option N :=
  let n := Ascii.N_of_ascii c in
  if bool_decide (48 <= n <= 57)%N then Some (n - 48)%N
  else if bool_decide (97 <= n <= 102)%N then Some (n - 87)%N
  else if bool_decide (65 <= n <= 70)%N then Some (n - 55)%N
  else None.

Fixpoint of_hex (acc : N) (s : string) : option N :=
  match s with
  | EmptyString => Some acc
  | String c s' =>
      match hex_value c with
      | Some d => of_hex (16 * acc + d)%N s'
      | None => None
      end
  end.

Fixpoint of_bytes (acc : N) (s : string) : N :=
  match s with
  | EmptyString => acc
  | String c s' => of_bytes (256 * acc + Ascii.N_of_ascii c)%N s'
  end.

(** [new ObjectId(s)] for a string: twelve characters are taken as the
    twelve bytes, twenty-four hexadecimal digits as their hex spelling;
    anything else throws. [ObjectId.isValid(s)] says whether it succeeds. *)
Definition of_string (s : string) : option ObjectId :=
  if bool_decide (String.length s = 12%nat) then Some (of_bytes 0 s)
  else if bool_decide (String.length s = 24%nat) then of_hex 0 s
  else None.

Definition isValid (s : string) : bool :=
  match of_string s with
  | Some _ => true
  | None => false
  end.

Definition hex_digit (d : N) : ascii :=
  if bool_decide (d < 10)%N then Ascii.ascii_of_N (48 + d) else Ascii.ascii_of_N (87 + d).

Fixpoint hex_digits (k : nat) (n : N) (acc : string) : string :=
  match k with
  | O => acc
  | S k' => hex_digits k' (n / 16)%N (String (hex_digit (n mod 16)%N) acc)
  end.

(** [id.toString()]: 24 lower-case hexadecimal digits. *)
Definition toString (id : ObjectId) : string := hex_digits 24 id "".

End ObjectIds.

(* ===================================================================== *)
(** ** The Post model (models/post) *)
(* ===================================================================== *)

(** The [user] sub-document of a post: [{ _id: ObjectId, username: String }]. *)
Module Owner.
Record t : Type := mk { _id : ObjectId; username : string }.
End Owner.

Module Post.
(** [count] may be missing from a stored document; the other paths are
    set by every write of this controller. [publishedDate] is a time in
    milliseconds. *)
Record t : Type := mk {
  _id : ObjectId;
  title : string;
  body : string;
  count : option Z;
  image : string;
  tags : list string;
  publishedDate : Z;
  user : option Owner.t;
}.

Definition with_body (b : string) (p : t) : t :=
  mk (_id p) (title p) b (count p) (image p) (tags p) (publishedDate p) (user p).

Definition with_count (c : option Z) (p : t) : t :=
  mk (_id p) (title p) (body p) c (image p) (tags p) (publishedDate p) (user p).
End Post.

(** The identity the authentication middleware leaves in [ctx.state.user]:
    the account's id as text, and its name. *)
Module User.
Record t : Type := mk { _id : string; username : string }.
End User.

(** The posts collection. *)
Abbreviation store := (gmap N Post.t) (only parsing).

(** The conditions of a [find] or [countDocuments]: a key that is [None]
    is not in the query object. *)
Module Filter.
Record t : Type := mk {
  user_username : option string;    (* 'user.username' *)
  tags : option string;             (* tags *)
}.
End Filter.

(** The update document of [findByIdAndUpdate]: the paths it sets. *)
Module Patch.
Record t : Type := mk {
  title : option string;
  body : option string;
  count : option (option Z);
  image : option string;
  tags : option (list string);
  publishedDate : option Z;
  user : option (option Owner.t);
}.
End Patch.

(** The calls a handler makes on the model, in order. *)
Inductive call : Type :=
| FindById (id : ObjectId)
| Find (q : Filter.t) (skip : Js.number) (limit : nat)
| CountDocuments (q : Filter.t)
| Save (p : Post.t)
| FindByIdAndUpdate (id : ObjectId) (upd : Patch.t)
| FindByIdAndRemove (id : ObjectId).

(** What the MongoDB driver does with [skip(NaN)] is not decided by this
    repository: [None] when it rejects the query, [Some k] when it skips
    [k] documents. *)
Class Driver : Type := skip_NaN : option nat.

Module Model.

Definition matches (q : Filter.t) (p : Post.t) : bool :=
  match Filter.user_username q with
  | Some name => bool_decide (Owner.username <$> Post.user p = Some name)
  | None => true
  end
  &&
  match Filter.tags q with
  | Some tag => bool_decide (tag ∈ Post.tags p)
  | None => true
  end.

(** Descending order on [_id]. *)
Definition newer_first (p q : Post.t) : Prop := (Post._id q <= Post._id p)%N.

#[global] Instance newer_first_dec : RelDecision newer_first.
Proof. intros p q. unfold newer_first. apply _. Defined.

(** The documents a query selects, newest first. *)
Definition selected (q : Filter.t) (db : store) : list Post.t :=
  merge_sort newer_first (filter (λ p, matches q p = true) (snd <$> map_to_list db)).

Definition findById (id : ObjectId) (db : store) : option Post.t := db !! id.

(** [Post.find(q).sort({ _id: -1 }).limit(n).skip(k).lean().exec()]:
    the store sorts, skips and then limits, whatever the order of the
    calls that build the query. [None] when the query is rejected. *)
Definition find `{Driver} (q : Filter.t) (skip : Js.number) (limit : nat)
    (db : store) : option (list Post.t) :=
  match skip with
  | Js.Num k =>
      if bool_decide (0 <= k) then Some (take limit (drop (Z.to_nat k) (selected q db)))
      else None
  | Js.NaN => (λ k, take limit (drop k (selected q db))) <$> skip_NaN
  end.

Definition countDocuments (q : Filter.t) (db : store) : nat :=
  length (selected q db).

(** [post.save()] of a new document: an [_id] already in the collection
    is a duplicate key error. *)
Definition save (p : Post.t) (db : store) : option store :=
  match db !! Post._id p with
  | Some _ => None
  | None => Some (<[Post._id p := p]> db)
  end.

Definition apply_patch (u : Patch.t) (p : Post.t) : Post.t :=
  Post.mk (Post._id p)
    (default (Post.title p) (Patch.title u))
    (default (Post.body p) (Patch.body u))
    (default (Post.count p) (Patch.count u))
    (default (Post.image p) (Patch.image u))
    (default (Post.tags p) (Patch.tags u))
    (default (Post.publishedDate p) (Patch.publishedDate u))
    (default (Post.user p) (Patch.user u)).

(** [findByIdAndUpdate(id, update, { new: true })]: sets the paths of the
    update and returns the document after it, [null] when there is none. *)
Definition findByIdAndUpdate (id : ObjectId) (u : Patch.t) (db : store)
    : option Post.t * store :=
  match db !! id with
  | Some p => (Some (apply_patch u p), <[id := apply_patch u p]> db)
  | None => (None, db)
  end.

(** [findByIdAndRemove(id)]: returns the removed document, [null] when
    there was none. *)
Definition findByIdAndRemove (id : ObjectId) (db : store) : option Post.t * store :=
  (db !! id, delete id db).

(** The update a whole document stands for when it is passed as one. *)
Definition patch_of (p : Post.t) : Patch.t :=
  Patch.mk (Some (Post.title p)) (Some (Post.body p)) (Some (Post.count p))
    (Some (Post.image p)) (Some (Post.tags p)) (Some (Post.publishedDate p))
    (Some (Post.user p)).

End Model.

(* ===================================================================== *)
(** ** sanitize-html *)
(* ===================================================================== *)

(** The options the controller passes; [None] leaves a key to the
    library's default. *)
Record SanitizeOptions : Type := {
  allowedTags : list string;
  allowedAttributes : option (list (string * list string));
  allowedSchemes : option (list string);
}.

(** [sanitizeHtml(dirty, options)], the imported library function. *)
Class SanitizeHtml : Type := sanitizeHtml : string → SanitizeOptions → string.

(** *** Tags of a text, to say what the allow-list promises *)

Module Html.

Definition is_name_char (c : ascii) : bool :=
  let n := Ascii.nat_of_ascii c in
  bool_decide ((48 ≤ n ∧ n ≤ 57) ∨ (65 ≤ n ∧ n ≤ 90) ∨ (97 ≤ n ∧ n ≤ 122))%nat.

Definition lower (c : ascii) : ascii :=
  let n := Ascii.nat_of_ascii c in
  if bool_decide (65 ≤ n ∧ n ≤ 90)%nat then Ascii.ascii_of_nat (n + 32) else c.

(** The longest prefix of name characters, in lower case. *)
Fixpoint name_prefix (s : string) : string :=
  match s with
  | String c s' => if is_name_char c then String (lower c) (name_prefix s') else ""
  | EmptyString => ""
  end.

(** The name of the tag that opens or closes right after a ['<']. *)
Definition name_after_lt (s : string) : string :=
  match s with
  | String "/"%char s' => name_prefix s'
  | _ => name_prefix s
  end.

(** The names of the tags of [s], in order of appearance: every ['<']
    followed by a name (after an optional ['/']) starts one. *)
Fixpoint tag_names (s : string) : list string :=
  match s with
  | String c s' =>
      if bool_decide (c = "<"%char)
      then match name_after_lt s' with
           | EmptyString => tag_names s'
           | name => name :: tag_names s'
           end
      else tag_names s'
  | EmptyString => []
  end.

(** [s] has no tag outside [allowed]. *)
Definition only_tags (allowed : list string) (s : string) : Prop :=
  Forall (λ name, name ∈ allowed) (tag_names s).

(** [needle] occurs in [s]. *)
Fixpoint includes (needle s : string) : bool :=
  Js.starts_with needle s ||
  match s with
  | String _ s' => includes needle s'
  | EmptyString => false
  end.

End Html.

(* ===================================================================== *)
(** ** Request bodies and their validation (joi) *)
(* ===================================================================== *)

(** A value of a parsed JSON request body. The content of a nested object
    is never looked at by this controller. *)
Inductive value : Type :=
| VNull
| VBool (b : bool)
| VNumber (n : Js.number)
| VString (s : string)
| VArray (items : list value)
| VObject.

Module Joi.

(** The schemas the controller builds: [Joi.string()] and
    [Joi.array().items(s)]. *)
Inductive schema : Type :=
| string_
| array_items (item : schema).

(** One key of [Joi.object().keys({...})], [.required()] or not. *)
Record key : Type := { name : string; type : schema; required : bool }.

(** A validation error: joi's error type, the key and, inside an array,
    the index it is about. *)
Record error : Type := { code : string; at_key : string; at_index : option nat }.

(** [Joi.string()] takes strings only, and not the empty string. *)
Fixpoint check (s : schema) (k : string) (i : option nat) (v : value) : option error :=
  match s with
  | string_ =>
      match v with
      | VString EmptyString => Some {| code := "string.empty"; at_key := k; at_index := i |}
      | VString _ => None
      | _ => Some {| code := "string.base"; at_key := k; at_index := i |}
      end
  | array_items item =>
      match v with
      | VArray items =>
          (fix each (n : nat) (l : list value) : option error :=
             match l with
             | [] => None
             | x :: l' =>
                 match check item k (Some n) x with
                 | Some e => Some e
                 | None => each (S n) l'
                 end
             end) O items
      | _ => Some {| code := "array.base"; at_key := k; at_index := i |}
      end
  end.

Definition check_key (obj : gmap string value) (k : key) : option error :=
  match obj !! name k with
  | Some v => check (type k) (name k) None v
  | None =>
      if required k
      then Some {| code := "any.required"; at_key := name k; at_index := None |}
      else None
  end.

(** The first [Some] of a list of checks. *)
Fixpoint first_error (l : list (option error)) : option error :=
  match l with
  | [] => None
  | Some e :: _ => Some e
  | None :: l' => first_error l'
  end.

(** [schema.validate(obj).error]: the keys of the schema in order, then
    the keys of [obj] the schema does not know, which are not allowed. *)
Definition validate (keys : list key) (obj : gmap string value) : option error :=
  match first_error (check_key obj <$> keys) with
  | Some e => Some e
  | None =>
      match filter (λ k, k ∉ name <$> keys) (fst <$> map_to_list obj) with
      | k :: _ => Some {| code := "object.unknown"; at_key := k; at_index := None |}
      | [] => None
      end
  end.

End Joi.

(* ===================================================================== *)
(** ** The Koa context *)
(* ===================================================================== *)

Inductive payload : Type :=
| Unset                                  (* ctx.body never assigned *)
| Null                                   (* ctx.body = null *)
| OfPost (p : Post.t)
| OfPosts (l : list Post.t)
| OfError (e : Joi.error)
| InternalServerError.                   (* what ctx.throw(500, e) leaves *)

Record Response : Type := {
  status : Z;
  explicit_status : bool;                (* ctx.status was assigned *)
  body : payload;
  Last_Page : option Z;                  (* the 'Last-Page' header *)
}.

Record Request : Type := {
  params_id : string;                    (* ctx.params.id *)
  query_page : option string;            (* ctx.query.page *)
  query_tag : option string;
  query_username : option string;
  request_body : gmap string value;      (* ctx.request.body *)
}.

Record Ctx : Type := {
  request : Request;
  state_user : option User.t;            (* ctx.state.user *)
  state_post : option Post.t;            (* ctx.state.post *)
  response : Response;
  db : store;
  calls : list call;
}.

Module Koa.

(** A context as Koa hands it to the first middleware. *)
Definition fresh (req : Request) (user : option User.t) (db : store) : Ctx :=
  {| request := req; state_user := user; state_post := None;
     response := {| status := 404; explicit_status := false; body := Unset;
                    Last_Page := None |};
     db := db; calls := [] |}.

Definition with_response (r : Response) (ctx : Ctx) : Ctx :=
  {| request := request ctx; state_user := state_user ctx;
     state_post := state_post ctx; response := r; db := db ctx;
     calls := calls ctx |}.

(** [ctx.status = n]. *)
Definition set_status (n : Z) (ctx : Ctx) : Ctx :=
  let r := response ctx in
  with_response {| status := n; explicit_status := true; body := body r;
                   Last_Page := Last_Page r |} ctx.

(** [ctx.body = b]: without an assigned status, 204 for [null] and 200
    for anything else. *)
Definition set_body (b : payload) (ctx : Ctx) : Ctx :=
  let r := response ctx in
  let s :=
    if explicit_status r then status r
    else match b with Null => 204 | _ => 200 end in
  with_response {| status := s; explicit_status := explicit_status r; body := b;
                   Last_Page := Last_Page r |} ctx.

(** [ctx.set('Last-Page', n)]. *)
Definition set_Last_Page (n : Z) (ctx : Ctx) : Ctx :=
  let r := response ctx in
  with_response {| status := status r; explicit_status := explicit_status r;
                   body := body r; Last_Page := Some n |} ctx.

(** [ctx.throw(500, e)], as answered by Koa's error handler. *)
Definition throw (n : Z) (ctx : Ctx) : Ctx :=
  with_response {| status := n; explicit_status := true;
                   body := InternalServerError; Last_Page := None |} ctx.

(** [ctx.state.post = p]. *)
Definition set_post (p : Post.t) (ctx : Ctx) : Ctx :=
  {| request := request ctx; state_user := state_user ctx;
     state_post := Some p; response := response ctx; db := db ctx;
     calls := calls ctx |}.

(** The store after a call, and the call in the log. *)
Definition called (c : call) (db' : store) (ctx : Ctx) : Ctx :=
  {| request := request ctx; state_user := state_user ctx;
     state_post := state_post ctx; response := response ctx; db := db';
     calls := calls ctx ++ [c] |}.

(** A middleware takes the context and the rest of the chain. *)
Definition middleware : Type := Ctx → (Ctx → Ctx) → Ctx.

End Koa.

(* ===================================================================== *)
(** ** The controller: src/api/posts/posts.ctrl.js *)
(* ===================================================================== *)

Module postsCtrl.
Section handlers.
Context `{!SanitizeHtml, !Driver}.

Definition sanitizeOption : SanitizeOptions :=
  {| allowedTags :=
       ["h1"; "h2"; "b"; "i"; "u"; "s"; "p"; "ul"; "ol"; "li"; "blockquote";
        "a"; "img"; "pre"; "span"];
     allowedAttributes :=
       Some [("a", ["href"; "name"; "target"]);
             ("img", ["src"]);
             ("li", ["class"]);
             ("pre", ["class"; "spellcheck"]);
             ("span", ["class"])];
     allowedSchemes := Some ["data"; "http"] |}.

(** [Post.findById(id)] casts the text of the id; a cast error is thrown
    on with [ctx.throw(e)]. *)
Definition getPostById : Koa.middleware := λ ctx next,
  let id := params_id (request ctx) in
  if negb (ObjectIds.isValid id) then Koa.set_status 400 ctx
  else
    match ObjectIds.of_string id with
    | None => Koa.throw 500 ctx
    | Some id =>
        let ctx := Koa.called (FindById id) (db ctx) ctx in
        match Model.findById id (db ctx) with
        | None => Koa.set_status 404 ctx
        | Some post => next (Koa.set_post post ctx)
        end
    end.

(** [post.user._id.toString() !== user._id]; reading [_id] of a missing
    [post.user._id] or of a missing [user] is a TypeError, which Koa
    answers with 500. *)
Definition checkOwnPost : Koa.middleware := λ ctx next,
  match state_user ctx, state_post ctx with
  | Some user, Some post =>
      match Post.user post with
      | Some owner =>
          if bool_decide (ObjectIds.toString (Owner._id owner) ≠ User._id user)
          then Koa.set_status 403 ctx
          else next ctx
      | None => Koa.throw 500 ctx
      end
  | _, _ => Koa.throw 500 ctx
  end.

Definition write_schema : list Joi.key :=
  [ {| Joi.name := "title"; Joi.type := Joi.string_; Joi.required := true |};
    {| Joi.name := "body"; Joi.type := Joi.string_; Joi.required := true |};
    {| Joi.name := "tags"; Joi.type := Joi.array_items Joi.string_;
       Joi.required := true |} ].

Definition update_schema : list Joi.key :=
  [ {| Joi.name := "title"; Joi.type := Joi.string_; Joi.required := false |};
    {| Joi.name := "body"; Joi.type := Joi.string_; Joi.required := false |};
    {| Joi.name := "tags"; Joi.type := Joi.array_items Joi.string_;
       Joi.required := false |} ].

(** The string under a key of the request body, when there is one. *)
Definition string_at (k : string) (obj : gmap string value) : option string :=
  match obj !! k with
  | Some (VString s) => Some s
  | _ => None
  end.

(** The strings of the array under a key of the request body. *)
Definition strings_at (k : string) (obj : gmap string value) : option (list string) :=
  match obj !! k with
  | Some (VArray items) =>
      mapM (λ v, match v with VString s => Some s | _ => None end) items
  | _ => None
  end.

Definition dquote : string := String (Ascii.ascii_of_nat 34) "".

Definition imgArr : list string :=
  ["img1.jpg"; "img2.jpg"; "img3.jpg"; "img4.jpg"; "img5.jpg"].

(** [/<img[^>]*src=[^>]*>/g] *)
Definition imgReg : list Js.atom :=
  [Js.Lit "<img"; Js.StarNot ">"; Js.Lit "src="; Js.StarNot ">"; Js.Lit ">"].

(** [random] is the value of [Math.floor(Math.random() * imgArr.length)]. *)
Definition parseImageToBody (random : nat) (body : option string) : string :=
  let imgSrc := "http://localhost:4000/" +:+ default "undefined" (imgArr !! random) in
  let image := "<img src=" +:+ dquote +:+ imgSrc +:+ dquote +:+ "/>" in
  match Js.exec imgReg (Js.to_string body) with
  | Some isImage => isImage
  | None => image
  end.

(** The sub-document mongoose casts [ctx.state.user] to; the outer [None]
    is a cast error, which [save] reports. *)
Definition cast_user (u : option User.t) : option (option Owner.t) :=
  match u with
  | None => Some None
  | Some u =>
      (λ id, Some (Owner.mk id (User.username u))) <$> ObjectIds.of_string (User._id u)
  end.

(** [id] is the ObjectId and [now] the publishedDate that [new Post]
    gives the document. *)
Definition write (id : ObjectId) (now : Z) (random : nat) (ctx : Ctx) : Ctx :=
  let input := request_body (request ctx) in
  match Joi.validate write_schema input with
  | Some error => Koa.set_body (OfError error) (Koa.set_status 400 ctx)
  | None =>
      match string_at "title" input, string_at "body" input,
            strings_at "tags" input, cast_user (state_user ctx) with
      | Some title, Some body, Some tags, Some user =>
          let post :=
            Post.mk id title (sanitizeHtml body sanitizeOption)
              (Some 0) (parseImageToBody random (Some body)) tags now user in
          match Model.save post (db ctx) with
          | Some db' => Koa.set_body (OfPost post) (Koa.called (Save post) db' ctx)
          | None => Koa.throw 500 (Koa.called (Save post) (db ctx) ctx)
          end
      | _, _, _, _ => Koa.throw 500 ctx
      end
  end.

Definition removeHtmlAndShorten (body : string) : string :=
  let filtered :=
    sanitizeHtml body
      {| allowedTags := ["p"]; allowedAttributes := None; allowedSchemes := None |} in
  if bool_decide (String.length filtered < 100)%nat then filtered
  else Js.slice0 100 filtered +:+ "...".

Definition read (ctx : Ctx) : Ctx :=
  match state_post ctx with
  | None => Koa.throw 500 ctx
  | Some nextData =>
      let nextData :=
        match Post.count nextData with
        | None => Post.with_count (Some 0) nextData
        | Some _ => nextData
        end in
      let nextData :=
        match Post.count nextData with
        | Some c =>
            if bool_decide (0 <= c) then Post.with_count (Some (c + 1)) nextData
            else nextData
        | None => nextData
        end in
      let '(post, db') :=
        Model.findByIdAndUpdate (Post._id nextData) (Model.patch_of nextData) (db ctx) in
      Koa.set_body (match post with Some p => OfPost p | None => Null end)
        (Koa.called (FindByIdAndUpdate (Post._id nextData) (Model.patch_of nextData))
           db' ctx)
  end.

Definition remove (ctx : Ctx) : Ctx :=
  match ObjectIds.of_string (params_id (request ctx)) with
  | None => Koa.throw 500 ctx
  | Some id =>
      let '(post, db') := Model.findByIdAndRemove id (db ctx) in
      Koa.set_status 204 (Koa.called (FindByIdAndRemove id) db' ctx)
  end.

Definition update (random : nat) (ctx : Ctx) : Ctx :=
  let input := request_body (request ctx) in
  match Joi.validate update_schema input with
  | Some error => Koa.set_body (OfError error) (Koa.set_status 400 ctx)
  | None =>
      let image := parseImageToBody random (string_at "body" input) in
      let body :=
        if Js.truthy (string_at "body" input)
        then (λ b, sanitizeHtml b sanitizeOption) <$> string_at "body" input
        else string_at "body" input in
      let nextData :=
        Patch.mk (string_at "title" input) body None (Some image)
          (strings_at "tags" input) None None in
      match ObjectIds.of_string (params_id (request ctx)) with
      | None => Koa.throw 500 ctx
      | Some id =>
          let '(post, db') := Model.findByIdAndUpdate id nextData (db ctx) in
          let ctx := Koa.called (FindByIdAndUpdate id nextData) db' ctx in
          match post with
          | None => Koa.set_status 404 ctx
          | Some post => Koa.set_body (OfPost post) ctx
          end
      end
  end.

Definition list (ctx : Ctx) : Ctx :=
  let page := Js.parseInt (Js.or_default (query_page (request ctx)) "1") in
  if Js.lt page (Js.Num 1) then Koa.set_status 400 ctx
  else
    let tag := query_tag (request ctx) in
    let username := query_username (request ctx) in
    let query :=
      Filter.mk (if Js.truthy username then username else None)
                (if Js.truthy tag then tag else None) in
    let skip := Js.mul (Js.sub page (Js.Num 1)) (Js.Num 20) in
    let ctx := Koa.called (Find query skip 20) (db ctx) ctx in
    match Model.find query skip 20 (db ctx) with
    | None => Koa.throw 500 ctx
    | Some posts =>
        let ctx := Koa.called (CountDocuments query) (db ctx) ctx in
        let postCount := Model.countDocuments query (db ctx) in
        let ctx := Koa.set_Last_Page (Js.ceil_div (Z.of_nat postCount) 20) ctx in
        Koa.set_body
          (OfPosts ((λ post, Post.with_body (removeHtmlAndShorten (Post.body post)) post)
                      <$> posts))
          ctx
    end.

End handlers.
End postsCtrl.

(* ===================================================================== *)
(** ** The router: src/api/posts/index.js *)
(* ===================================================================== *)

Module posts.
Section routes.
Context `{!SanitizeHtml, !Driver}.

(** Modelled from the spec: lib/checkLoggedIn is not among the sources.
    The spec calls it a middleware that yields the authenticated identity
    or rejects the request; the rejection is given status 401 here. *)
Definition checkLoggedIn : Koa.middleware := λ ctx next,
  match state_user ctx with
  | None => Koa.set_status 401 ctx
  | Some _ => next ctx
  end.

(** [posts.get('/', postsCtrl.list)] *)
Definition get_root (ctx : Ctx) : Ctx := postsCtrl.list ctx.

(** [posts.post('/', checkLoggedIn, postsCtrl.write)] *)
Definition post_root (id : ObjectId) (now : Z) (random : nat) (ctx : Ctx) : Ctx :=
  checkLoggedIn ctx (postsCtrl.write id now random).

(** [posts.get('/:id', postsCtrl.getPostById, postsCtrl.read)] *)
Definition get_id (ctx : Ctx) : Ctx :=
  postsCtrl.getPostById ctx postsCtrl.read.

(** [posts.delete('/:id', checkLoggedIn, getPostById, checkOwnPost, remove)] *)
Definition delete_id (ctx : Ctx) : Ctx :=
  checkLoggedIn ctx (λ ctx,
    postsCtrl.getPostById ctx (λ ctx,
      postsCtrl.checkOwnPost ctx postsCtrl.remove)).

(** [posts.patch('/:id', checkLoggedIn, getPostById, checkOwnPost, update)] *)
Definition patch_id (random : nat) (ctx : Ctx) : Ctx :=
  checkLoggedIn ctx (λ ctx,
    postsCtrl.getPostById ctx (λ ctx,
      postsCtrl.checkOwnPost ctx (postsCtrl.update random))).

End routes.
End posts.

(* ===================================================================== *)
(** ** Stores the routes can produce *)
(* ===================================================================== *)

(** One request served by the router: the route with what the environment
    chooses for it (the new ObjectId, the clock, the random index). *)
Inductive served : Type :=
| GetRoot
| PostRoot (id : ObjectId) (now : Z) (random : nat)
| GetId
| DeleteId
| PatchId (random : nat).

Definition serve `{!SanitizeHtml, !Driver} (r : served) (ctx : Ctx) : Ctx :=
  match r with
  | GetRoot => posts.get_root ctx
  | PostRoot id now random => posts.post_root id now random ctx
  | GetId => posts.get_id ctx
  | DeleteId => posts.delete_id ctx
  | PatchId random => posts.patch_id random ctx
  end.

(** The stores reached from the empty collection by serving requests. *)
Inductive reachable `{!SanitizeHtml, !Driver} : store → Prop :=
| reachable_empty : reachable ∅
| reachable_serve (r : served) (req : Request) (user : option User.t) (db0 : store) :
    reachable db0 → reachable (db (serve r (Koa.fresh req user db0))).

(** The invariant of the data model on one document: it is stored under
    its own [_id], and its counter, when present, is not negative. *)
Definition well_formed (id : ObjectId) (p : Post.t) : Prop :=
  Post._id p = id ∧ match Post.count p with Some c => 0 <= c | None => True end.

(** The page number [list] reads from the query string. *)
Definition page_of (req : Request) : Js.number :=
  Js.parseInt (Js.or_default (query_page req) "1").

(** The query object [list] builds from [tag] and [username]. *)
Definition query_of (req : Request) : Filter.t :=
  Filter.mk
    (if Js.truthy (query_username req) then query_username req else None)
    (if Js.truthy (query_tag req) then query_tag req else None).

(** The entry of the list response for a document. *)
Definition summary `{!SanitizeHtml} (post : Post.t) : Post.t :=
  Post.with_body (postsCtrl.removeHtmlAndShorten (Post.body post)) post.

(** The request body [{ title, body, tags }] of a create request. *)
Definition create_input (title body : string) (tags : list string) : gmap string value :=
  {[ "title" := VString title; "body" := VString body;
     "tags" := VArray (VString <$> tags) ]}.

(** What [removeHtmlAndShorten] strips a body down to. *)
Definition stripped `{!SanitizeHtml} (body : string) : string :=
  sanitizeHtml body
    {| allowedTags := ["p"]; allowedAttributes := None; allowedSchemes := None |}.

(** What every route keeps true of a stored document, besides
    [well_formed]: the counter is there, and the title, the image and
    each tag are not empty. *)
Definition settled (id : ObjectId) (p : Post.t) : Prop :=
  well_formed id p
  ∧ is_Some (Post.count p)
  ∧ Post.title p ≠ ""
  ∧ Post.image p ≠ ""
  ∧ Forall (λ tag, tag ≠ "") (Post.tags p).

(** [s] is written with the digits 0-9 and a-f only. *)
Fixpoint lower_hex (s : string) : bool :=
  match s with
  | String c s' =>
      let n := Ascii.N_of_ascii c in
      (bool_decide (48 <= n <= 57)%N || bool_decide (97 <= n <= 102)%N) && lower_hex s'
  | EmptyString => true
  end.

(** [s] ends with [suffix]. *)
Fixpoint ends_with (suffix s : string) : bool :=
  bool_decide (s = suffix) ||
  match s with
  | String _ s' => ends_with suffix s'
  | EmptyString => false
  end.

(* ===================================================================== *)
(** ** An instance of the libraries, for examples *)
(* ===================================================================== *)

Module Reference.

(** A sanitizer with the allow-list property and nothing more: a ['<']
    that does not open or close a listed tag is written as [&lt;]. *)
Fixpoint escape_unlisted (allowed : list string) (s : string) : string :=
  match s with
  | String c s' =>
      if bool_decide (c = "<"%char)
      then if bool_decide (Html.name_after_lt s' ∈ allowed)
           then String c (escape_unlisted allowed s')
           else "&lt;" +:+ escape_unlisted allowed s'
      else String c (escape_unlisted allowed s')
  | EmptyString => ""
  end.

Definition sanitize : SanitizeHtml := λ dirty options,
  escape_unlisted (allowedTags options) dirty.

(** A driver that rejects [skip(NaN)]. *)
Definition driver : Driver := None.

Definition alice : User.t := User.mk "00000000000000000000000a" "alice".
Definition bob : User.t := User.mk "00000000000000000000000b" "bob".

Definition request (id : string) (page tag username : option string)
    (input : gmap string value) : Request :=
  {| params_id := id; query_page := page; query_tag := tag;
     query_username := username; request_body := input |}.

(** A post of alice with the given id, body and tags. *)
Definition post (id : ObjectId) (body : string) (tags : list string) : Post.t :=
  Post.mk id "title" body (Some 0) "<img src=x>" tags 0 (Some (Owner.mk 10 "alice")).

(** Twenty-five posts tagged go, with ids 1 to 25, and one tagged rust. *)
Definition go_posts : store :=
  <[100%N := post 100 "<p>rust</p>" ["rust"]]>
    (list_to_map ((λ n, (N.of_nat n, post (N.of_nat n) "<p>hello</p>" ["go"]))
                    <$> seq 1 25)).

(** [n] letters x between paragraph tags: a text of [n + 7] characters. *)
Definition paragraph (n : nat) : string :=
  "<p>" +:+ String.string_of_list_ascii (replicate n "x"%char) +:+ "</p>".

(** A request to the post with id 1 whose body has tags and nothing else. *)
Definition tags_only : Request :=
  request "000000000000000000000001" None None None
    {[ "tags" := VArray [VString "rocq"] ]}.


(** A create request, and a read request for the id 99 it is given. *)
Definition create_hello : Request :=
  request "" None None None (create_input "Hello" "<p>hi</p>" ["go"]).

Definition read_99 : Request :=
  request "000000000000000000000063" None None None ∅.

(** A create request whose body has an image tag, one whose body has a
    tag the image pattern takes for one, and an update of post 99 with
    tags alone. *)
Definition create_with_image : Request :=
  request "" None None None
    (create_input "Hello" "<p>hi</p><img src=http://a/b.png>" ["go"]).

Definition create_with_imgx : Request :=
  request "" None None None (create_input "Hello" "<imgx src=a>" ["go"]).

Definition retag_99 : Request :=
  request "000000000000000000000063" None None None
    {[ "tags" := VArray [VString "rocq"] ]}.

(** An update of post 99 with a new body. *)
Definition rewrite_99 : Request :=
  request "000000000000000000000063" None None None
    {[ "body" := VString "<p>new</p><img src=c.png>" ]}.

(** The pages of the posts tagged go. *)
Definition go_page (page : string) : Request :=
  request "" (Some page) (Some "go") None ∅.

(** A create request without tags, and an update that names the counter. *)
Definition create_without_tags : Request :=
  request "" None None None {[ "title" := VString "Hello"; "body" := VString "<p>hi</p>" ]}.

Definition recount_1 : Request :=
  request "000000000000000000000001" None None None
    {[ "count" := VNumber (Js.Num 100) ]}.

(** A post whose counter is below zero, as no route stores one, and the
    context [read] gets for it. *)
Definition in_debt : Post.t := Post.with_count (Some (-3)) (post 7 "<p>old</p>" []).

Definition reading_in_debt : Ctx :=
  Koa.set_post in_debt
    (Koa.fresh (request "000000000000000000000007" None None None ∅) None
       {[ 7%N := in_debt ]}).

(** A post stored without a counter, the store that holds it, and a read
    request for it. *)
Definition uncounted : Post.t := Post.with_count None (post 8 "<p>old</p>" []).

Definition one_uncounted : store := {[ 8%N := uncounted ]}.

Definition read_8 : Request :=
  request "000000000000000000000008" None None None ∅.

End Reference.

(* ===================================================================== *)
(** * Properties *)
(* ===================================================================== *)

(** ** Strings *)

Lemma append_cons (c : ascii) (s t : string) :
  String c s +:+ t = String c (s +:+ t).
Proof. reflexivity. Qed.

Lemma length_append (s t : string) :
  String.length (s +:+ t) = (String.length s + String.length t)%nat.
Proof. induction s as [|c s IH]; simpl; [done | by rewrite IH]. Qed.

Lemma length_slice0 (n : nat) (s : string) :
  String.length (Js.slice0 n s) = (n `min` String.length s)%nat.
Proof.
  revert s. induction n as [|n IH]; intros [|c s]; simpl; try done.
  by rewrite IH.
Qed.

Lemma slice0_drop_str (n : nat) (s : string) :
  Js.slice0 n s +:+ Js.drop_str n s = s.
Proof.
  revert s. induction n as [|n IH]; intros [|c s]; simpl; try done.
  by rewrite append_cons, IH.
Qed.

Lemma ends_with_append (s t : string) : ends_with t (s +:+ t) = true.
Proof.
  induction s as [|c s IH]; simpl.
  - destruct t; simpl; repeat case_bool_decide; done.
  - rewrite IH. apply orb_true_r.
Qed.

(** ** parseInt and the image pattern on some texts *)

Example parseInt_plain : Js.parseInt "12" = Js.Num 12.
Proof. reflexivity. Qed.

Example parseInt_signed_prefix : Js.parseInt "  -7px" = Js.Num (-7).
Proof. reflexivity. Qed.

Example parseInt_fraction : Js.parseInt "0.5" = Js.Num 0.
Proof. reflexivity. Qed.

Example parseInt_word : Js.parseInt "abc" = Js.NaN.
Proof. reflexivity. Qed.

Example imgReg_first_tag :
  Js.exec postsCtrl.imgReg "<p>hi</p><img alt=1 src=a.png><img src=b.png>"
  = Some "<img alt=1 src=a.png>".
Proof. reflexivity. Qed.

Example imgReg_needs_src_in_tag :
  Js.exec postsCtrl.imgReg "<img alt=1> src=a.png>" = None.
Proof. reflexivity. Qed.

Example ObjectId_text : ObjectIds.of_string (ObjectIds.toString 99) = Some 99%N.
Proof. reflexivity. Qed.

(** ** The excerpt builder *)

Section excerpt.
Context `{!SanitizeHtml}.

(** C8. The excerpt builder strips the body down to paragraph tags; a
    stripped text shorter than 100 is the result, any other is cut to its
    first 100 characters followed by the ellipsis. A body of 150
    characters that the stripping leaves as it is gives 103 characters
    ending in the ellipsis, one of 50 characters is returned unchanged. *)
Theorem removeHtmlAndShorten_excerpt (body : string) :
  ((String.length (stripped body) < 100)%nat →
     postsCtrl.removeHtmlAndShorten body = stripped body)
  ∧ ((100 ≤ String.length (stripped body))%nat →
       ∃ first rest : string,
         stripped body = first +:+ rest ∧ String.length first = 100%nat
         ∧ postsCtrl.removeHtmlAndShorten body = first +:+ "...")
  ∧ (stripped body = body → String.length body = 150%nat →
       String.length (postsCtrl.removeHtmlAndShorten body) = 103%nat
       ∧ ends_with "..." (postsCtrl.removeHtmlAndShorten body) = true)
  ∧ (stripped body = body → String.length body = 50%nat →
       postsCtrl.removeHtmlAndShorten body = body).
Proof.
  unfold postsCtrl.removeHtmlAndShorten. fold (stripped body).
  split_and!.
  - intros Hlt. by rewrite bool_decide_eq_true_2.
  - intros Hge. rewrite bool_decide_eq_false_2 by lia.
    exists (Js.slice0 100 (stripped body)), (Js.drop_str 100 (stripped body)).
    rewrite slice0_drop_str, length_slice0. split_and!; [done | lia | done].
  - intros Hid Hlen. rewrite Hid, bool_decide_eq_false_2 by lia.
    rewrite length_append, length_slice0, ends_with_append, Hlen. done.
  - intros Hid Hlen. rewrite Hid, bool_decide_eq_true_2 by lia. done.
Qed.

End excerpt.

(** The excerpt of a paragraph of 150 characters and of one of 50. *)
Lemma removeHtmlAndShorten_excerpt_witness :
  (String.length
     (@postsCtrl.removeHtmlAndShorten Reference.sanitize (Reference.paragraph 143))
   = 103%nat
   ∧ ends_with "..."
       (@postsCtrl.removeHtmlAndShorten Reference.sanitize (Reference.paragraph 143))
     = true)
  ∧ @postsCtrl.removeHtmlAndShorten Reference.sanitize (Reference.paragraph 43)
    = Reference.paragraph 43.
Proof.
  split.
  - apply (@removeHtmlAndShorten_excerpt Reference.sanitize (Reference.paragraph 143));
      reflexivity.
  - apply (@removeHtmlAndShorten_excerpt Reference.sanitize (Reference.paragraph 43));
      reflexivity.
Defined.

(** ** Listing *)

Lemma ceil_div_bounds (n : Z) :
  0 <= n → 20 * (Js.ceil_div n 20 - 1) < n <= 20 * Js.ceil_div n 20.
Proof.
  intros Hn. unfold Js.ceil_div.
  pose proof (Z.div_mod n 20 ltac:(lia)) as Hdm.
  pose proof (Z.mod_pos_bound n 20 ltac:(lia)) as Hmod.
  case_bool_decide; lia.
Qed.

#[local] Instance newer_first_total : Total Model.newer_first.
Proof. intros p q. unfold Model.newer_first. lia. Qed.

Lemma selected_sorted (q : Filter.t) (db : store) :
  Sorted Model.newer_first (Model.selected q db).
Proof. apply (Sorted_merge_sort Model.newer_first). Qed.

Lemma selected_matching (q : Filter.t) (db : store) :
  Model.selected q db ≡ₚ
    filter (λ post, Model.matches q post = true) (snd <$> map_to_list db).
Proof. apply merge_sort_Permutation. Qed.

Section listing.
Context `{!SanitizeHtml, !Driver}.

(** The context [list] leaves when the page guard lets the request pass
    and the store answers. *)
Lemma list_served (req : Request) (user : option User.t) (db0 : store)
    (p : Z) (found : list Post.t) :
  page_of req = Js.Num p → 1 <= p →
  found = take 20 (drop (Z.to_nat ((p - 1) * 20)) (Model.selected (query_of req) db0)) →
  postsCtrl.list (Koa.fresh req user db0) =
    {| request := req; state_user := user; state_post := None;
       response :=
         {| status := 200; explicit_status := false;
            body := OfPosts (summary <$> found);
            Last_Page :=
              Some (Js.ceil_div
                      (Z.of_nat (length (Model.selected (query_of req) db0))) 20) |};
       db := db0;
       calls := [Find (query_of req) (Js.Num ((p - 1) * 20)) 20;
                 CountDocuments (query_of req)] |}.
Proof.
  intros Hpage Hp ->. unfold postsCtrl.list, page_of in *. simpl.
  rewrite Hpage. simpl.
  rewrite bool_decide_eq_false_2 by lia.
  fold (query_of req). simpl.
  rewrite bool_decide_eq_true_2 by lia. reflexivity.
Qed.

(** C1. For a page number [p >= 1] and any tag and username filters, the
    list operation answers with at most 20 entities: those that follow
    the first [(p-1)*20] of the matching entities in descending order of
    id; and Last-Page is the ceiling of the number of matching entities
    over 20. *)
Theorem list_pagination (req : Request) (user : option User.t) (db0 : store) (p : Z) :
  page_of req = Js.Num p → 1 <= p →
  let matching :=
    filter (λ post, Model.matches (query_of req) post = true) (snd <$> map_to_list db0) in
  let ctx := postsCtrl.list (Koa.fresh req user db0) in
  ∃ (sorted page : list Post.t) (last : Z),
    sorted ≡ₚ matching
    ∧ Sorted Model.newer_first sorted
    ∧ page = take 20 (drop (Z.to_nat ((p - 1) * 20)) sorted)
    ∧ (length page ≤ 20)%nat
    ∧ status (response ctx) = 200
    ∧ body (response ctx) = OfPosts (summary <$> page)
    ∧ Last_Page (response ctx) = Some last
    ∧ 20 * (last - 1) < Z.of_nat (length matching) <= 20 * last.
Proof.
  intros Hpage Hp matching ctx.
  exists (Model.selected (query_of req) db0). eexists _, _.
  subst ctx. rewrite (list_served req user db0 p _ Hpage Hp eq_refl). simpl.
  split_and!; try done.
  - apply selected_matching.
  - apply selected_sorted.
  - rewrite length_take. lia.
  - subst matching. rewrite <- (selected_matching (query_of req) db0). apply ceil_div_bounds. lia.
  - subst matching. rewrite <- (selected_matching (query_of req) db0). apply ceil_div_bounds. lia.
Qed.

(** C10. The page guard answers 400 exactly when the page text parses to
    an integer below 1, and then nothing is asked of the store. A page
    text that parses to NaN passes the guard: the store is queried, with
    NaN as the number of documents to skip. *)
Theorem list_page_guard (req : Request) (user : option User.t) (db0 : store) :
  let ctx := postsCtrl.list (Koa.fresh req user db0) in
  (status (response ctx) = 400 ↔ ∃ z : Z, page_of req = Js.Num z ∧ z < 1)
  ∧ ((∃ z : Z, page_of req = Js.Num z ∧ z < 1) → calls ctx = [] ∧ db ctx = db0)
  ∧ (page_of req = Js.NaN →
       status (response ctx) ∈ [200; 500]
       ∧ ∃ rest : list call, calls ctx = Find (query_of req) Js.NaN 20 :: rest).
Proof.
  unfold postsCtrl.list, page_of. fold (query_of req). simpl.
  destruct (Js.parseInt _) as [|z] eqn:Hpage; simpl.
  - split_and!.
    + split; [|intros (z & ? & _); done].
      unfold Model.find. destruct skip_NaN; simpl; done.
    + intros (z & ? & _); done.
    + intros _. unfold Model.find. destruct skip_NaN; simpl.
      * split; [set_solver | eauto].
      * split; [set_solver | eauto].
  - case_bool_decide as Hz; simpl.
    + split_and!; [|done|done]. split; eauto.
    + split_and!; [|intros (z' & [= <-] & ?); lia | done].
      split; [|intros (z' & [= <-] & ?); lia].
      unfold Model.find. case_bool_decide; simpl; done.
Qed.

End listing.

(** Page 1 of the posts tagged go, out of the 25 there are. *)
Lemma list_pagination_witness :
  let req := Reference.request "" (Some "1") (Some "go") None ∅ in
  let ctx :=
    @postsCtrl.list Reference.sanitize Reference.driver
      (Koa.fresh req None Reference.go_posts) in
  page_of req = Js.Num 1
  ∧ ∃ (sorted page : list Post.t) (last : Z),
      page = take 20 sorted
      ∧ body (response ctx) = OfPosts (@summary Reference.sanitize <$> page)
      ∧ Last_Page (response ctx) = Some last
      ∧ 20 * (last - 1) < 25 <= 20 * last.
Proof.
  intros req ctx. split; [reflexivity|].
  destruct (@list_pagination Reference.sanitize Reference.driver req None
              Reference.go_posts 1 eq_refl ltac:(lia))
    as (sorted & page & last & _ & _ & Hpage & _ & _ & Hbody & Hlast & Hbounds).
  exists sorted, page, last. split_and!; [exact Hpage | exact Hbody | exact Hlast | |].
  - exact (proj1 Hbounds).
  - exact (proj2 Hbounds).
Defined.

(** A page that is not a number reaches the store. *)
Example list_page_word :
  calls (@postsCtrl.list Reference.sanitize Reference.driver
           (Koa.fresh (Reference.request "" (Some "abc") None None ∅) None ∅))
  = [Find (Filter.mk None None) Js.NaN 20].
Proof. reflexivity. Qed.

(** ** The routes with a looked-up post *)

Section routes.
Context `{!SanitizeHtml, !Driver}.

(** [getPostById] with an id that is in the store hands the document to
    the rest of the chain. *)
Lemma getPostById_found (ctx : Ctx) (next : Ctx → Ctx) (id : ObjectId) (post : Post.t) :
  ObjectIds.of_string (params_id (request ctx)) = Some id →
  db ctx !! id = Some post →
  postsCtrl.getPostById ctx next =
    next (Koa.set_post post (Koa.called (FindById id) (db ctx) ctx)).
Proof.
  intros Hid Hpost. unfold postsCtrl.getPostById, ObjectIds.isValid, Model.findById.
  rewrite Hid. simpl. by rewrite Hpost.
Qed.

(** C4. When the text of the requester's id differs from the text of the
    id of the post's user, the delete and the update routes answer 403
    after the lookup: no call that changes the store is made and the
    store is the one the request found. *)
Theorem checkOwnPost_forbidden (req : Request) (requester : User.t) (db0 : store)
    (random : nat) (id : ObjectId) (post : Post.t) (owner : Owner.t) :
  ObjectIds.of_string (params_id req) = Some id →
  db0 !! id = Some post →
  Post.user post = Some owner →
  ObjectIds.toString (Owner._id owner) ≠ User._id requester →
  let deleted := posts.delete_id (Koa.fresh req (Some requester) db0) in
  let patched := posts.patch_id random (Koa.fresh req (Some requester) db0) in
  (status (response deleted) = 403 ∧ db deleted = db0 ∧ calls deleted = [FindById id])
  ∧ (status (response patched) = 403 ∧ db patched = db0
     ∧ calls patched = [FindById id]).
Proof.
  intros Hid Hpost Howner Hdiff deleted patched.
  subst deleted patched. unfold posts.delete_id, posts.patch_id, posts.checkLoggedIn.
  simpl. rewrite !(getPostById_found _ _ id post) by done.
  unfold postsCtrl.checkOwnPost. simpl. rewrite Howner.
  rewrite bool_decide_eq_true_2 by done. done.
Qed.

(** C7. The delete handler answers 204 whether or not a document was
    removed: when none has the id, the store stays as it was and the
    answer is still 204. *)
Theorem remove_no_content (ctx : Ctx) (id : ObjectId) :
  ObjectIds.of_string (params_id (request ctx)) = Some id →
  status (response (postsCtrl.remove ctx)) = 204
  ∧ db (postsCtrl.remove ctx) = delete id (db ctx)
  ∧ calls (postsCtrl.remove ctx) = calls ctx ++ [FindByIdAndRemove id]
  ∧ (db ctx !! id = None →
       db (postsCtrl.remove ctx) = db ctx
       ∧ body (response (postsCtrl.remove ctx)) = body (response ctx)).
Proof.
  intros Hid. unfold postsCtrl.remove. rewrite Hid. simpl.
  split_and!; try done. intros Hnone. by rewrite delete_id.
Qed.

End routes.

(** Bob asks to delete and to update a post of alice. *)
Lemma checkOwnPost_forbidden_witness :
  let req := Reference.request "000000000000000000000001" None None None ∅ in
  let deleted := posts.delete_id (Koa.fresh req (Some Reference.bob) Reference.go_posts) in
  let patched :=
    @posts.patch_id Reference.sanitize 0
      (Koa.fresh req (Some Reference.bob) Reference.go_posts) in
  (status (response deleted) = 403 ∧ db deleted = Reference.go_posts
   ∧ calls deleted = [FindById 1%N])
  ∧ (status (response patched) = 403 ∧ db patched = Reference.go_posts
     ∧ calls patched = [FindById 1%N]).
Proof.
  apply (@checkOwnPost_forbidden Reference.sanitize
           (Reference.request "000000000000000000000001" None None None ∅)
           Reference.bob Reference.go_posts 0%nat 1%N
           (Reference.post 1 "<p>hello</p>" ["go"]) (Owner.mk 10 "alice"));
    [reflexivity | reflexivity | reflexivity | discriminate].
Defined.

(** Deleting an id the store does not hold. *)
Lemma remove_no_content_witness :
  let ctx :=
    Koa.fresh (Reference.request "000000000000000000000063" None None None ∅)
      (Some Reference.alice) Reference.go_posts in
  status (response (postsCtrl.remove ctx)) = 204
  ∧ db (postsCtrl.remove ctx) = Reference.go_posts.
Proof.
  intros ctx.
  destruct (remove_no_content ctx 99%N eq_refl) as (Hstatus & _ & _ & Hmissing).
  split; [exact Hstatus | exact (proj1 (Hmissing eq_refl))].
Defined.

(** ** Updating *)

Section updating.
Context `{!SanitizeHtml}.

(** The update document the handler builds from a request body. *)
Lemma update_found (random : nat) (ctx : Ctx) (id : ObjectId) (post : Post.t) :
  let input := request_body (request ctx) in
  Joi.validate postsCtrl.update_schema input = None →
  ObjectIds.of_string (params_id (request ctx)) = Some id →
  db ctx !! id = Some post →
  ∃ nextData : Patch.t,
    Patch.title nextData = postsCtrl.string_at "title" input
    ∧ Patch.body nextData =
        ((λ b, sanitizeHtml b postsCtrl.sanitizeOption)
           <$> postsCtrl.string_at "body" input)
    ∧ Patch.tags nextData = postsCtrl.strings_at "tags" input
    ∧ Patch.image nextData
        = Some (postsCtrl.parseImageToBody random (postsCtrl.string_at "body" input))
    ∧ Patch.count nextData = None ∧ Patch.publishedDate nextData = None
    ∧ Patch.user nextData = None
    ∧ postsCtrl.update random ctx =
        Koa.set_body (OfPost (Model.apply_patch nextData post))
          (Koa.called (FindByIdAndUpdate id nextData)
             (<[id := Model.apply_patch nextData post]> (db ctx)) ctx).
Proof.
  intros input Hvalid Hid Hpost.
  assert (postsCtrl.string_at "body" input ≠ Some "") as Hbody.
  { (* an empty body does not pass the schema *)
    unfold postsCtrl.string_at. intros Hempty.
    destruct (input !! "body") as [[]|] eqn:Hin; try done. simplify_eq.
    unfold Joi.validate, postsCtrl.update_schema in Hvalid. simpl in Hvalid.
    unfold Joi.check_key at 2 in Hvalid. simpl in Hvalid. rewrite Hin in Hvalid.
    simpl in Hvalid. destruct (Joi.check_key input _); done. }
  exists (Patch.mk (postsCtrl.string_at "title" input)
            ((λ b, sanitizeHtml b postsCtrl.sanitizeOption)
               <$> postsCtrl.string_at "body" input)
            None
            (Some (postsCtrl.parseImageToBody random (postsCtrl.string_at "body" input)))
            (postsCtrl.strings_at "tags" input) None None).
  split_and!; try done.
  unfold postsCtrl.update. fold input.
  rewrite Hvalid, Hid. unfold Model.findByIdAndUpdate. rewrite Hpost.
  destruct (postsCtrl.string_at "body" input) as [[|c b]|]; simpl; done.
Qed.

(** The image the extractor falls back to when there is no body. *)
Lemma parseImageToBody_undefined (random : nat) :
  postsCtrl.parseImageToBody random None =
    "<img src=" +:+ postsCtrl.dquote +:+ "http://localhost:4000/"
      +:+ default "undefined" (postsCtrl.imgArr !! random)
      +:+ postsCtrl.dquote +:+ "/>".
Proof. reflexivity. Qed.

(** C5. A valid update sets the stored image to what the thumbnail
    extractor gives on the body of the input, whatever body is stored;
    an input without body gets the fallback image the extractor gives on
    the absent value, and keeps the stored body. *)
Theorem update_recomputes_image (random : nat) (ctx : Ctx) (id : ObjectId) (post : Post.t) :
  let input := request_body (request ctx) in
  Joi.validate postsCtrl.update_schema input = None →
  ObjectIds.of_string (params_id (request ctx)) = Some id →
  db ctx !! id = Some post →
  ∃ saved : Post.t,
    db (postsCtrl.update random ctx) !! id = Some saved
    ∧ Post.image saved
        = postsCtrl.parseImageToBody random (postsCtrl.string_at "body" input)
    ∧ (input !! "body" = None →
         Post.body saved = Post.body post
         ∧ Post.image saved = postsCtrl.parseImageToBody random None
         ∧ Post.image saved =
             "<img src=" +:+ postsCtrl.dquote +:+ "http://localhost:4000/"
               +:+ default "undefined" (postsCtrl.imgArr !! random)
               +:+ postsCtrl.dquote +:+ "/>").
Proof.
  intros input Hvalid Hid Hpost.
  destruct (update_found random ctx id post Hvalid Hid Hpost)
    as (nextData & _ & Hbody & _ & Himage & _ & _ & _ & ->).
  exists (Model.apply_patch nextData post). simpl.
  rewrite lookup_insert_eq, Himage. simpl. split_and!; try done.
  intros Hnone. fold input in Hbody. rewrite Hbody.
  unfold postsCtrl.string_at. fold input. rewrite Hnone. done.
Qed.

(** C9. After a valid update, each of title, body and tags that the
    input leaves out has the value it had in the store; an update with
    tags alone keeps title and body. *)
Theorem update_keeps_absent_fields (random : nat) (ctx : Ctx) (id : ObjectId)
    (post : Post.t) :
  let input := request_body (request ctx) in
  Joi.validate postsCtrl.update_schema input = None →
  ObjectIds.of_string (params_id (request ctx)) = Some id →
  db ctx !! id = Some post →
  ∃ saved : Post.t,
    db (postsCtrl.update random ctx) !! id = Some saved
    ∧ body (response (postsCtrl.update random ctx)) = OfPost saved
    ∧ (input !! "title" = None → Post.title saved = Post.title post)
    ∧ (input !! "body" = None → Post.body saved = Post.body post)
    ∧ (input !! "tags" = None → Post.tags saved = Post.tags post)
    ∧ (dom input = {["tags"]} →
         Post.title saved = Post.title post ∧ Post.body saved = Post.body post).
Proof.
  intros input Hvalid Hid Hpost.
  destruct (update_found random ctx id post Hvalid Hid Hpost)
    as (nextData & Htitle & Hbody & Htags & _ & _ & _ & _ & ->).
  fold input in Htitle, Hbody, Htags.
  exists (Model.apply_patch nextData post). simpl.
  rewrite lookup_insert_eq, Htitle, Hbody, Htags.
  unfold postsCtrl.string_at, postsCtrl.strings_at.
  assert (∀ k : string, dom input = {["tags"]} → k ≠ "tags" → input !! k = None)
    as Honly.
  { intros k Hdom Hk. apply not_elem_of_dom. rewrite Hdom. set_solver. }
  split_and!; try done.
  - by intros ->.
  - by intros ->.
  - by intros ->.
  - intros Hdom. by rewrite !Honly.
Qed.

End updating.

(** An update of post 1 with tags alone: the image becomes the first
    fallback image, the body stays. *)
Lemma update_recomputes_image_witness :
  let ctx := Koa.fresh Reference.tags_only (Some Reference.alice) Reference.go_posts in
  ∃ saved : Post.t,
    db (@postsCtrl.update Reference.sanitize 0 ctx) !! 1%N = Some saved
    ∧ Post.body saved = "<p>hello</p>"
    ∧ Post.image saved =
        "<img src=" +:+ postsCtrl.dquote +:+ "http://localhost:4000/img1.jpg"
          +:+ postsCtrl.dquote +:+ "/>".
Proof.
  intros ctx.
  destruct (@update_recomputes_image Reference.sanitize 0 ctx 1%N
              (Reference.post 1 "<p>hello</p>" ["go"]) eq_refl eq_refl eq_refl)
    as (saved & Hsaved & _ & Habsent).
  exists saved. destruct (Habsent eq_refl) as (Hbody & _ & Himage).
  split_and!; [exact Hsaved | exact Hbody | exact Himage].
Defined.

(** An update of post 1 with tags alone keeps its title and its body. *)
Lemma update_keeps_absent_fields_witness :
  let ctx := Koa.fresh Reference.tags_only (Some Reference.alice) Reference.go_posts in
  ∃ saved : Post.t,
    db (@postsCtrl.update Reference.sanitize 0 ctx) !! 1%N = Some saved
    ∧ Post.title saved = "title" ∧ Post.body saved = "<p>hello</p>"
    ∧ Post.tags saved = ["rocq"].
Proof.
  intros ctx.
  destruct (@update_keeps_absent_fields Reference.sanitize 0 ctx 1%N
              (Reference.post 1 "<p>hello</p>" ["go"]) eq_refl eq_refl eq_refl)
    as (saved & Hsaved & _ & _ & _ & _ & Honly).
  exists saved. destruct (Honly eq_refl) as (Htitle & Hbody).
  split_and!; [exact Hsaved | exact Htitle | exact Hbody |].
  revert Hsaved. vm_compute. by intros [= <-].
Defined.

(** ** The invariant of the stored documents *)

Section invariant.
Context `{!SanitizeHtml, !Driver}.

Lemma list_db (ctx : Ctx) : db (postsCtrl.list ctx) = db ctx.
Proof.
  unfold postsCtrl.list. case_match; [done|]. simpl. by case_match.
Qed.

Lemma apply_patch_of (doc stored : Post.t) :
  Post._id stored = Post._id doc →
  Model.apply_patch (Model.patch_of doc) stored = doc.
Proof. destruct doc. unfold Model.apply_patch. simpl. by intros ->. Qed.

(** What [write] does to the store: nothing, or one insertion of a
    document with the new id and a counter of 0. *)
Lemma write_db (id : ObjectId) (now : Z) (random : nat) (ctx : Ctx) :
  db (postsCtrl.write id now random ctx) = db ctx
  ∨ ∃ post : Post.t,
      Post._id post = id ∧ Post.count post = Some 0
      ∧ db (postsCtrl.write id now random ctx) = <[id := post]> (db ctx).
Proof.
  unfold postsCtrl.write. repeat case_match; simpl; auto.
  right. unfold Model.save in *. simpl in *. case_match; simplify_eq.
  eexists. split_and!; [| |reflexivity]; done.
Qed.

(** What [read] does to the store: it puts back the document it was
    given, with its counter raised when that is not negative. *)
Lemma read_db (ctx : Ctx) (post : Post.t) :
  state_post ctx = Some post →
  db ctx !! Post._id post = Some post →
  ∃ c : Z,
    (Post.count post = None ∧ c = 1
     ∨ (∃ c0, Post.count post = Some c0 ∧ 0 <= c0 ∧ c = c0 + 1)
     ∨ (∃ c0, Post.count post = Some c0 ∧ c0 < 0 ∧ c = c0))
    ∧ postsCtrl.read ctx =
        Koa.set_body (OfPost (Post.with_count (Some c) post))
          (Koa.called
             (FindByIdAndUpdate (Post._id post)
                (Model.patch_of (Post.with_count (Some c) post)))
             (<[Post._id post := Post.with_count (Some c) post]> (db ctx)) ctx).
Proof.
  intros Hstate Hdb. unfold postsCtrl.read. rewrite Hstate.
  destruct (Post.count post) as [c0|] eqn:Hcount; simpl.
  - rewrite Hcount. case_bool_decide as Hc0.
    + exists (c0 + 1). split; [right; left; eauto|].
      unfold Model.findByIdAndUpdate. simpl. rewrite Hdb.
      by rewrite apply_patch_of.
    + exists c0. split; [right; right; exists c0; split_and!; [done|lia|done]|].
      unfold Model.findByIdAndUpdate. rewrite Hdb.
      rewrite apply_patch_of by done.
      replace (Post.with_count (Some c0) post) with post; [done|].
      destruct post; simpl in *; by subst.
  - exists 1. split; [left; done|].
    unfold Model.findByIdAndUpdate. simpl. rewrite Hdb.
    by rewrite apply_patch_of.
Qed.

Lemma well_formed_with_count (id : ObjectId) (post : Post.t) (c : Z) :
  well_formed id post → 0 <= c → well_formed id (Post.with_count (Some c) post).
Proof. intros [Hid _] Hc. by split. Qed.

(** Every route keeps the documents well formed. *)
Lemma serve_well_formed (r : served) (req : Request) (user : option User.t)
    (db0 : store) :
  map_Forall well_formed db0 →
  map_Forall well_formed (db (serve r (Koa.fresh req user db0))).
Proof.
  intros Hwf. destruct r as [|id now random| | |random]; simpl.
  - unfold posts.get_root. by rewrite list_db.
  - unfold posts.post_root, posts.checkLoggedIn. simpl.
    destruct user; [|done].
    destruct (write_db id now random (Koa.fresh req (Some t) db0))
      as [->|(post & Hid & Hcount & ->)]; [done|].
    apply map_Forall_insert_2; [|done]. split; [done|]. by rewrite Hcount.
  - unfold posts.get_id, postsCtrl.getPostById, ObjectIds.isValid, Model.findById.
    simpl. destruct (ObjectIds.of_string _) as [id|]; [|done]. simpl.
    destruct (db0 !! id) as [post|] eqn:Hpost; [|done].
    destruct (Hwf id post Hpost) as [Hid Hcount].
    destruct (read_db (Koa.set_post post (Koa.called (FindById id) db0
                         (Koa.fresh req user db0))) post eq_refl)
      as (c & Hc & ->); [simpl; by rewrite Hid|]. simpl.
    apply map_Forall_insert_2; [|done].
    apply well_formed_with_count; [by rewrite Hid|].
    destruct Hc as [[_ ->]|[(c0 & ? & ? & ->)|(c0 & Hc0 & ? & ->)]]; [lia|lia|].
    rewrite Hc0 in Hcount. lia.
  - unfold posts.delete_id, posts.checkLoggedIn, postsCtrl.getPostById,
      ObjectIds.isValid, postsCtrl.checkOwnPost, postsCtrl.remove. simpl.
    repeat (case_match; simpl; try done).
    by apply map_Forall_delete.
  - unfold posts.patch_id, posts.checkLoggedIn, postsCtrl.getPostById,
      ObjectIds.isValid, postsCtrl.checkOwnPost, Model.findById. simpl.
    destruct user; [|done].
    destruct (ObjectIds.of_string _) as [id|] eqn:Hid; [|done]. simpl.
    destruct (db0 !! id) as [post|] eqn:Hpost; [|done]. simpl.
    destruct (Post.user post); [|done]. case_bool_decide; [done|].
    unfold postsCtrl.update. simpl. rewrite Hid.
    destruct (Joi.validate _ _); [done|].
    unfold Model.findByIdAndUpdate. simpl. rewrite Hpost. simpl.
    apply map_Forall_insert_2; [|done].
    destruct (Hwf id post Hpost) as [? Hcount]. split; [done|]. simpl. done.
Qed.

Lemma reachable_well_formed (db0 : store) :
  reachable db0 → map_Forall well_formed db0.
Proof.
  induction 1 as [|r req user db0 _ IH].
  - apply map_Forall_empty.
  - by apply serve_well_formed.
Qed.

End invariant.

(** ** Reading *)

Section reading.
Context `{!SanitizeHtml, !Driver}.

(** The read route on a document with a counter that is absent or not
    negative. *)
Lemma get_id_found (req : Request) (user : option User.t) (db0 : store)
    (id : ObjectId) (post : Post.t) :
  ObjectIds.of_string (params_id req) = Some id →
  db0 !! id = Some post →
  well_formed id post →
  let ctx := posts.get_id (Koa.fresh req user db0) in
  let answer := Post.with_count (Some (default 0 (Post.count post) + 1)) post in
  status (response ctx) = 200
  ∧ body (response ctx) = OfPost answer
  ∧ db ctx = <[id := answer]> db0.
Proof.
  intros Hid Hpost [Hkey Hcount] ctx answer. subst ctx answer.
  unfold posts.get_id. rewrite (getPostById_found _ _ id post) by done.
  edestruct (read_db (Koa.set_post post
                        (Koa.called (FindById id) (db (Koa.fresh req user db0))
                           (Koa.fresh req user db0))) post eq_refl)
    as (c & Hc & ->); [simpl; by rewrite Hkey|]. simpl. rewrite Hkey.
  destruct Hc as [[Hnone ->]|[(c0 & Hc0 & ? & ->)|(c0 & Hc0 & ? & ->)]].
  - by rewrite Hnone.
  - by rewrite Hc0.
  - rewrite Hc0 in Hcount. lia.
Qed.

(** A create request answered with 200 has stored the document it
    answers with, under the new id and with a counter of 0. *)
Lemma post_root_created (req : Request) (user : option User.t) (db0 : store)
    (id : ObjectId) (now : Z) (random : nat) :
  let created := posts.post_root id now random (Koa.fresh req user db0) in
  status (response created) = 200 →
  ∃ post : Post.t,
    body (response created) = OfPost post
    ∧ Post._id post = id ∧ Post.count post = Some 0
    ∧ db created = <[id := post]> db0
    ∧ ∃ raw : string,
        postsCtrl.string_at "body" (request_body req) = Some raw
        ∧ Post.body post = sanitizeHtml raw postsCtrl.sanitizeOption
        ∧ Post.image post = postsCtrl.parseImageToBody random (Some raw).
Proof.
  unfold posts.post_root, posts.checkLoggedIn, postsCtrl.write. simpl.
  destruct user; [|done]. simpl.
  repeat (case_match; simpl; try done). intros _.
  unfold Model.save in *. simpl in *. case_match; simplify_eq.
  eexists. split_and!; [reflexivity| | |reflexivity|]; try done.
  eexists. split_and!; [reflexivity|..]; done.
Qed.

(** C3. Reading a stored post raises its counter by exactly 1, an absent
    counter counting as 0; the post is stored with the new counter and is
    the answer. This holds of a post whose counter is absent, or is not
    negative, as the data model has it, and is below 2^53, up to where
    adding 1 to a JavaScript number is adding 1 to the integer. A post
    that was just created is answered with counter 1 by the first read of
    its id and with counter 2 by the second. *)
Theorem read_increments_count :
  (∀ (req : Request) (user : option User.t) (db0 : store) (id : ObjectId)
     (post : Post.t),
     ObjectIds.of_string (params_id req) = Some id →
     db0 !! id = Some post →
     Post._id post = id →
     (∀ c : Z, Post.count post = Some c → 0 <= c < 2 ^ 53) →
     let ctx := posts.get_id (Koa.fresh req user db0) in
     let answer := Post.with_count (Some (default 0 (Post.count post) + 1)) post in
     status (response ctx) = 200
     ∧ body (response ctx) = OfPost answer
     ∧ db ctx = <[id := answer]> db0
     ∧ (Post.count post = None → Post.count answer = Some 1)
     ∧ (∀ c : Z, Post.count post = Some c → Post.count answer = Some (c + 1)))
  ∧ (∀ (req_w req_r : Request) (author reader1 reader2 : option User.t)
       (db0 : store) (id : ObjectId) (now : Z) (random : nat),
       let created := posts.post_root id now random (Koa.fresh req_w author db0) in
       let first := posts.get_id (Koa.fresh req_r reader1 (db created)) in
       let second := posts.get_id (Koa.fresh req_r reader2 (db first)) in
       status (response created) = 200 →
       ObjectIds.of_string (params_id req_r) = Some id →
       ∃ post : Post.t,
         body (response created) = OfPost post
         ∧ Post.count post = Some 0
         ∧ body (response first) = OfPost (Post.with_count (Some 1) post)
         ∧ body (response second) = OfPost (Post.with_count (Some 2) post)
         ∧ db second !! id = Some (Post.with_count (Some 2) post)).
Proof.
  split.
  - intros req user db0 id post Hid Hpost Hkey Hcount ctx answer.
    destruct (get_id_found req user db0 id post Hid Hpost) as (Hstatus & Hbody & Hdb).
    { split; [done|]. destruct (Post.count post) as [c|]; [|done].
      by destruct (Hcount c eq_refl). }
    split_and!; [done..| |].
    + subst answer. simpl. by intros ->.
    + intros c Hc. subst answer. simpl. by rewrite Hc.
  - intros req_w req_r author reader1 reader2 db0 id now random created first second
      Hcreated Hid.
    destruct (post_root_created req_w author db0 id now random Hcreated)
      as (post & Hbody & Hkey & Hcount & Hdb & _).
    exists post. fold created in Hbody, Hdb.
    destruct (get_id_found req_r reader1 (db created) id post Hid) as (_ & Hb1 & Hdb1).
    { rewrite Hdb. apply lookup_insert_eq. }
    { split; [done|]. by rewrite Hcount. }
    fold first in Hb1, Hdb1. rewrite Hcount in Hb1, Hdb1. simpl in Hb1, Hdb1.
    destruct (get_id_found req_r reader2 (db first) id (Post.with_count (Some 1) post) Hid)
      as (_ & Hb2 & Hdb2).
    { rewrite Hdb1. apply lookup_insert_eq. }
    { by split. }
    fold second in Hb2, Hdb2. simpl in Hb2, Hdb2.
    split_and!; try done. rewrite Hdb2. apply lookup_insert_eq.
Qed.

End reading.

(** A post without a counter is read; and alice creates a post in an
    empty store that is then read twice. *)
Lemma read_increments_count_witness :
  let read := posts.get_id (Koa.fresh Reference.read_8 None Reference.one_uncounted) in
  let created :=
    @posts.post_root Reference.sanitize 99 0 0
      (Koa.fresh Reference.create_hello (Some Reference.alice) ∅) in
  let first := posts.get_id (Koa.fresh Reference.read_99 None (db created)) in
  let second := posts.get_id (Koa.fresh Reference.read_99 None (db first)) in
  (status (response read) = 200
   ∧ body (response read) = OfPost (Post.with_count (Some 1) Reference.uncounted)
   ∧ db read !! 8%N = Some (Post.with_count (Some 1) Reference.uncounted))
  ∧ (∃ post : Post.t,
       body (response created) = OfPost post
       ∧ body (response first) = OfPost (Post.with_count (Some 1) post)
       ∧ body (response second) = OfPost (Post.with_count (Some 2) post)).
Proof.
  intros read created first second.
  pose proof (@read_increments_count Reference.sanitize) as [Hread Hround].
  split.
  - assert (ObjectIds.of_string (params_id Reference.read_8) = Some 8%N) as Hid
      by (vm_compute; reflexivity).
    assert (Reference.one_uncounted !! 8%N = Some Reference.uncounted) as Hpost
      by (vm_compute; reflexivity).
    assert (∀ c : Z, Post.count Reference.uncounted = Some c → 0 <= c < 2 ^ 53)
      as Hcount by (intros c Hc; discriminate Hc).
    destruct (Hread Reference.read_8 None Reference.one_uncounted 8%N
                Reference.uncounted Hid Hpost eq_refl Hcount)
      as (Hstatus & Hbody & Hdb & _).
    split_and!; [exact Hstatus | exact Hbody |].
    fold read in Hdb. rewrite Hdb. apply lookup_insert_eq.
  - assert (status (response created) = 200) as Hcreated by (vm_compute; reflexivity).
    assert (ObjectIds.of_string (params_id Reference.read_99) = Some 99%N) as Hid
      by (vm_compute; reflexivity).
    destruct (Hround Reference.create_hello Reference.read_99 (Some Reference.alice)
                None None ∅ 99%N 0 0%nat Hcreated Hid)
      as (post & Hbody & _ & Hfirst & Hsecond & _).
    exists post. split_and!; [exact Hbody | exact Hfirst | exact Hsecond].
Defined.

(** ** Creating *)

(** The names of tags survive [escape_unlisted]. *)
Lemma name_prefix_escape (allowed : list string) (s : string) :
  Html.name_prefix (Reference.escape_unlisted allowed s) = Html.name_prefix s.
Proof.
  induction s as [|c s IH]; [done|]. simpl.
  case_bool_decide as Hlt.
  - subst c. case_bool_decide; reflexivity.
  - simpl. by rewrite IH.
Qed.

Lemma name_after_lt_escape (allowed : list string) (s : string) :
  Html.name_after_lt (Reference.escape_unlisted allowed s) = Html.name_after_lt s.
Proof.
  destruct s as [|c s]; [done|].
  destruct (decide (c = "/"%char)) as [->|Hslash].
  - simpl. apply name_prefix_escape.
  - transitivity (Html.name_prefix (Reference.escape_unlisted allowed (String c s))).
    + simpl. case_bool_decide as Hlt; [subst c; case_bool_decide; reflexivity|].
      unfold Html.name_after_lt. repeat case_match; simplify_eq; done.
    + rewrite name_prefix_escape.
      unfold Html.name_after_lt. repeat case_match; simplify_eq; done.
Qed.

(** The reference sanitizer keeps to the allow-list. *)
Lemma escape_unlisted_only_tags (allowed : list string) (s : string) :
  Html.only_tags allowed (Reference.escape_unlisted allowed s).
Proof.
  unfold Html.only_tags. induction s as [|c s IH]; [constructor|]. simpl.
  case_bool_decide as Hlt; [subst c|simpl; by rewrite bool_decide_eq_false_2].
  case_bool_decide as Hallowed; simpl.
  - rewrite name_after_lt_escape.
    destruct (Html.name_after_lt s) eqn:Hname; [done|]. by constructor.
  - done.
Qed.

(** A stored image is never the empty text. *)
Lemma match_here_imgReg (s m : string) :
  Js.match_here postsCtrl.imgReg s = Some m → m ≠ "".
Proof.
  unfold postsCtrl.imgReg. simpl. case_match; [|done].
  destruct (Js.backtrack _ _); simpl; [|done]. by intros [= <-].
Qed.

Lemma exec_unfold (re : list Js.atom) (s : string) :
  Js.exec re s =
    match Js.match_here re s with
    | Some m => Some m
    | None => match s with String _ s' => Js.exec re s' | EmptyString => None end
    end.
Proof. by destruct s. Qed.

Lemma exec_imgReg (s m : string) : Js.exec postsCtrl.imgReg s = Some m → m ≠ "".
Proof.
  induction s as [|c s IH]; rewrite exec_unfold;
    destruct (Js.match_here _ _) eqn:Hm; try done;
    intros [= <-]; by eapply match_here_imgReg.
Qed.

Lemma parseImageToBody_not_empty (random : nat) (body : option string) :
  postsCtrl.parseImageToBody random body ≠ "".
Proof.
  unfold postsCtrl.parseImageToBody.
  destruct (Js.exec _ _) eqn:Hexec; [by eapply exec_imgReg|done].
Qed.

Lemma check_tags (k : string) (i : option nat) (tags : list string) :
  Forall (λ tag, tag ≠ "") tags →
  Joi.check (Joi.array_items Joi.string_) k i (VArray (VString <$> tags)) = None.
Proof.
  intros Htags. simpl. generalize 0%nat.
  induction Htags as [|tag tags Htag _ IH]; intros n; [done|].
  simpl. destruct tag; [done|]. apply IH.
Qed.

Lemma filter_none {A : Type} (P : A → Prop) `{!∀ x, Decision (P x)} (l : list A) :
  Forall (λ x, ¬ P x) l → filter P l = [].
Proof.
  induction 1 as [|x l Hx _ IH]; [done|]. by rewrite filter_cons_False.
Qed.

Lemma create_input_title (title body : string) (tags : list string) :
  create_input title body tags !! "title" = Some (VString title).
Proof. unfold create_input. by simplify_map_eq. Qed.

Lemma create_input_body (title body : string) (tags : list string) :
  create_input title body tags !! "body" = Some (VString body).
Proof. unfold create_input. by simplify_map_eq. Qed.

Lemma create_input_tags (title body : string) (tags : list string) :
  create_input title body tags !! "tags" = Some (VArray (VString <$> tags)).
Proof. unfold create_input. by simplify_map_eq. Qed.

Lemma strings_at_create (title body : string) (tags : list string) :
  postsCtrl.strings_at "tags" (create_input title body tags) = Some tags.
Proof.
  unfold postsCtrl.strings_at. rewrite create_input_tags.
  induction tags as [|tag tags IH]; [done|].
  rewrite fmap_cons. simpl. by rewrite IH.
Qed.

(** A create input with a title, a body and tags that are not empty
    passes the schema of [write]. *)
Lemma validate_create (title body : string) (tags : list string) :
  title ≠ "" → body ≠ "" → Forall (λ tag, tag ≠ "") tags →
  Joi.validate postsCtrl.write_schema (create_input title body tags) = None.
Proof.
  intros Htitle Hbody Htags.
  unfold Joi.validate.
  assert (Joi.first_error
            (Joi.check_key (create_input title body tags) <$> postsCtrl.write_schema)
          = None) as ->.
  { unfold postsCtrl.write_schema. rewrite !fmap_cons, fmap_nil.
    unfold Joi.check_key. cbn [Joi.name Joi.type Joi.required].
    rewrite create_input_title, create_input_body, create_input_tags.
    rewrite check_tags by done. destruct title, body; done. }
  replace (filter _ _) with (@nil string); [done|].
  symmetry. apply filter_none, Forall_forall. intros k Hk Hunknown.
  apply Hunknown. apply list_elem_of_fmap in Hk as ([k' v] & -> & Hkv).
  apply elem_of_map_to_list in Hkv. simpl. unfold create_input in Hkv.
  repeat (apply lookup_insert_Some in Hkv as [[<- _]|[_ Hkv]]; [set_solver|]).
  apply lookup_singleton_Some in Hkv as [<- _]. set_solver.
Qed.

Section creating.
Context `{!SanitizeHtml}.

(** C2, as the code has it. A create input whose title and body are
    strings that are not empty and whose tags are strings that are not
    empty, sent by an identified requester and stored under an id the
    collection does not hold yet, is answered with the saved entity: its
    counter is 0, its image is not empty, its user is the requester, and
    its body is what the sanitizer makes of the input under the allow-list
    of the controller, so it has no tag outside that list when the
    sanitizer keeps to the list it is given. *)
Theorem write_creates (req : Request) (requester : User.t) (db0 : store)
    (id owner : ObjectId) (now : Z) (random : nat)
    (title raw : string) (tags : list string) :
  request_body req = create_input title raw tags →
  title ≠ "" → raw ≠ "" → Forall (λ tag, tag ≠ "") tags →
  ObjectIds.of_string (User._id requester) = Some owner →
  db0 !! id = None →
  let created := posts.post_root id now random (Koa.fresh req (Some requester) db0) in
  ∃ post : Post.t,
    status (response created) = 200
    ∧ body (response created) = OfPost post
    ∧ db created = <[id := post]> db0
    ∧ Post._id post = id
    ∧ Post.count post = Some 0
    ∧ Post.image post ≠ ""
    ∧ Post.user post = Some (Owner.mk owner (User.username requester))
    ∧ Post.title post = title ∧ Post.tags post = tags
    ∧ Post.body post = sanitizeHtml raw postsCtrl.sanitizeOption
    ∧ ((∀ dirty options, Html.only_tags (allowedTags options) (sanitizeHtml dirty options)) →
         Html.only_tags (allowedTags postsCtrl.sanitizeOption) (Post.body post)).
Proof.
  intros Hinput Htitle Hraw Htags Howner Hfresh created. subst created.
  unfold posts.post_root, posts.checkLoggedIn, postsCtrl.write. simpl.
  rewrite Hinput, validate_create, strings_at_create by done.
  unfold postsCtrl.string_at. rewrite create_input_title, create_input_body.
  unfold postsCtrl.cast_user. rewrite Howner. simpl.
  unfold Model.save. simpl. rewrite Hfresh. simpl.
  eexists. split_and!; try reflexivity.
  - apply parseImageToBody_not_empty.
  - intros Hcontract. exact (Hcontract raw postsCtrl.sanitizeOption).
Qed.

End creating.

(** C2 as stated fails: a title that is the empty string is a string, and
    the create request that carries it is answered 400 with joi's error;
    nothing is stored. *)
Lemma write_empty_title_counterexample :
  let ctx :=
    @posts.post_root Reference.sanitize 99 0 0
      (Koa.fresh
         (Reference.request "" None None None (create_input "" "<p>hi</p>" ["go"]))
         (Some Reference.alice) ∅) in
  response ctx =
    {| status := 400; explicit_status := true;
       body := OfError {| Joi.code := "string.empty"; Joi.at_key := "title";
                          Joi.at_index := None |};
       Last_Page := None |}
  ∧ db ctx = ∅ ∧ calls ctx = [].
Proof. vm_compute. done. Qed.

(** The create request of the reference data. *)
Lemma write_creates_witness :
  let created :=
    @posts.post_root Reference.sanitize 99 0 0
      (Koa.fresh Reference.create_hello (Some Reference.alice) ∅) in
  ∃ post : Post.t,
    status (response created) = 200
    ∧ body (response created) = OfPost post
    ∧ Post.count post = Some 0
    ∧ Post.image post ≠ ""
    ∧ Post.user post = Some (Owner.mk 10 "alice")
    ∧ Html.only_tags (allowedTags postsCtrl.sanitizeOption) (Post.body post).
Proof.
  intros created.
  assert (Forall (λ tag : string, tag ≠ "") ["go"]) as Htags
    by (constructor; [discriminate | constructor]).
  assert (ObjectIds.of_string (User._id Reference.alice) = Some 10%N) as Howner
    by (vm_compute; reflexivity).
  destruct (@write_creates Reference.sanitize Reference.create_hello Reference.alice
              ∅ 99%N 10%N 0 0%nat "Hello" "<p>hi</p>" ["go"] eq_refl
              ltac:(discriminate) ltac:(discriminate) Htags Howner eq_refl)
    as (post & Hstatus & Hbody & _ & _ & Hcount & Himage & Huser & _ & _ & _ & Hallowed).
  exists post. split_and!;
    [exact Hstatus | exact Hbody | exact Hcount | exact Himage | exact Huser |].
  apply Hallowed. intros dirty options. apply escape_unlisted_only_tags.
Defined.

(** ** Image and body *)

Lemma tag_names_cons (c : ascii) (s : string) (name : string) :
  name ∈ Html.tag_names s → name ∈ Html.tag_names (String c s).
Proof.
  intros Hin. simpl. case_bool_decide; [|done].
  destruct (Html.name_after_lt s); [done|]. by apply list_elem_of_further.
Qed.

Lemma starts_with_app (p s : string) :
  Js.starts_with p s = true → ∃ rest : string, s = p +:+ rest.
Proof.
  revert s. induction p as [|a p IH]; intros s; simpl; [by exists s|].
  destruct s as [|b s]; [done|].
  intros [<-%bool_decide_eq_true Hrest]%andb_prop.
  destruct (IH s Hrest) as (rest & ->). by exists rest.
Qed.

(** A text that includes the tag [<imgx src=a>] has a tag named imgx. *)
Lemma includes_imgx (s : string) :
  Html.includes "<imgx src=a>" s = true → "imgx" ∈ Html.tag_names s.
Proof.
  induction s as [|c s IH]; [done|].
  change (Html.includes "<imgx src=a>" (String c s))
    with (Js.starts_with "<imgx src=a>" (String c s) || Html.includes "<imgx src=a>" s).
  intros [Hhere|Hlater]%orb_prop.
  - apply starts_with_app in Hhere as (rest & Hs).
    change ("<imgx src=a>" +:+ rest) with (String "<" ("imgx src=a>" +:+ rest)) in Hs.
    injection Hs as -> ->. apply list_elem_of_here.
  - by apply tag_names_cons, IH.
Qed.

Section image.
Context `{!SanitizeHtml, !Driver}.

(** With any sanitizer that keeps to the allow-list, the image stored for
    the raw body [<imgx src=a>] is that text, and the saved body does not
    include it. *)
Lemma raw_image_not_in_saved_body (user : option User.t) (db0 : store) (id : ObjectId)
    (now : Z) (random : nat) :
  (∀ dirty options, Html.only_tags (allowedTags options) (sanitizeHtml dirty options)) →
  let created :=
    posts.post_root id now random (Koa.fresh Reference.create_with_imgx user db0) in
  status (response created) = 200 →
  ∃ post : Post.t,
    db created !! id = Some post
    ∧ Post.image post = "<imgx src=a>"
    ∧ Html.includes (Post.image post) (Post.body post) = false.
Proof.
  intros Hcontract created Hstatus.
  destruct (post_root_created _ user db0 id now random Hstatus)
    as (post & _ & _ & _ & Hdb & raw & Hraw & Hbody & Himage).
  exists post. fold created in Hdb. rewrite Hdb, lookup_insert_eq.
  assert (raw = "<imgx src=a>") as -> by (vm_compute in Hraw; congruence).
  assert (Post.image post = "<imgx src=a>") as Himgx by (by rewrite Himage).
  split_and!; [done..|]. rewrite Himgx, Hbody.
  apply not_true_is_false. intros Hin%includes_imgx.
  specialize (Hcontract "<imgx src=a>" postsCtrl.sanitizeOption).
  unfold Html.only_tags in Hcontract. rewrite Forall_forall in Hcontract.
  assert ("imgx" ∉ allowedTags postsCtrl.sanitizeOption) as Hunlisted
    by compute_done.
  exact (Hunlisted (Hcontract _ Hin)).
Qed.

(** C6, as the code has it. Create stores as image what the thumbnail
    extractor gives on the raw body of the input, and as body the
    sanitized form of that raw body; an update whose input has a body
    does the same with that body; read keeps both body and image. *)
Theorem image_follows_raw_body :
  (∀ (req : Request) (user : option User.t) (db0 : store) (id : ObjectId) (now : Z)
     (random : nat),
     let created := posts.post_root id now random (Koa.fresh req user db0) in
     status (response created) = 200 →
     ∃ (raw : string) (post : Post.t),
       postsCtrl.string_at "body" (request_body req) = Some raw
       ∧ db created !! id = Some post
       ∧ Post.body post = sanitizeHtml raw postsCtrl.sanitizeOption
       ∧ Post.image post = postsCtrl.parseImageToBody random (Some raw))
  ∧ (∀ (random : nat) (ctx : Ctx) (id : ObjectId) (post : Post.t) (raw : string),
       Joi.validate postsCtrl.update_schema (request_body (request ctx)) = None →
       ObjectIds.of_string (params_id (request ctx)) = Some id →
       db ctx !! id = Some post →
       postsCtrl.string_at "body" (request_body (request ctx)) = Some raw →
       ∃ saved : Post.t,
         db (postsCtrl.update random ctx) !! id = Some saved
         ∧ Post.body saved = sanitizeHtml raw postsCtrl.sanitizeOption
         ∧ Post.image saved = postsCtrl.parseImageToBody random (Some raw))
  ∧ (∀ (req : Request) (user : option User.t) (db0 : store) (id : ObjectId)
       (post : Post.t),
       reachable db0 →
       ObjectIds.of_string (params_id req) = Some id →
       db0 !! id = Some post →
       ∃ saved : Post.t,
         db (posts.get_id (Koa.fresh req user db0)) !! id = Some saved
         ∧ Post.body saved = Post.body post
         ∧ Post.image saved = Post.image post).
Proof.
  split_and!.
  - intros req user db0 id now random created Hstatus.
    destruct (post_root_created req user db0 id now random Hstatus)
      as (post & _ & _ & _ & Hdb & raw & Hraw & Hbody & Himage).
    exists raw, post. fold created in Hdb. by rewrite Hdb, lookup_insert_eq.
  - intros random ctx id post raw Hvalid Hid Hpost Hraw.
    destruct (update_found random ctx id post Hvalid Hid Hpost)
      as (nextData & _ & Hbody & _ & Himage & _ & _ & _ & ->).
    exists (Model.apply_patch nextData post). simpl.
    rewrite lookup_insert_eq, Hbody, Himage, Hraw. done.
  - intros req user db0 id post Hreach Hid Hpost.
    destruct (get_id_found req user db0 id post Hid Hpost) as (_ & _ & ->).
    { by apply (reachable_well_formed db0 Hreach). }
    eexists. by rewrite lookup_insert_eq.
Qed.

End image.

(** C6 as stated fails. Alice creates a post whose body has an image tag
    and then updates its tags alone: the body stays, yet the image is
    computed again and is no longer a tag of the body. And the image kept
    for the raw body [<imgx src=a>] is not in the body that is saved. *)
Lemma image_consistency_counterexample :
  let created :=
    @posts.post_root Reference.sanitize 99 0 0
      (Koa.fresh Reference.create_with_image (Some Reference.alice) ∅) in
  let patched :=
    @posts.patch_id Reference.sanitize 0
      (Koa.fresh Reference.retag_99 (Some Reference.alice) (db created)) in
  let odd :=
    @posts.post_root Reference.sanitize 99 0 0
      (Koa.fresh Reference.create_with_imgx (Some Reference.alice) ∅) in
  (∃ before after : Post.t,
     db created !! 99%N = Some before
     ∧ db patched !! 99%N = Some after
     ∧ status (response patched) = 200
     ∧ Post.body after = Post.body before
     ∧ Post.image before = "<img src=http://a/b.png>"
     ∧ Post.image after =
         "<img src=" +:+ postsCtrl.dquote +:+ "http://localhost:4000/img1.jpg"
           +:+ postsCtrl.dquote +:+ "/>"
     ∧ Html.includes (Post.image before) (Post.body before) = true
     ∧ Html.includes (Post.image after) (Post.body after) = false)
  ∧ (∃ post : Post.t,
       db odd !! 99%N = Some post
       ∧ Js.exec postsCtrl.imgReg "<imgx src=a>" = Some (Post.image post)
       ∧ Html.includes (Post.image post) (Post.body post) = false).
Proof.
  vm_compute. split.
  - eexists _, _. split_and!; reflexivity.
  - eexists. split_and!; reflexivity.
Qed.

(** Alice creates a post and then gives it a new body. *)
Lemma image_follows_raw_body_witness :
  let created :=
    @posts.post_root Reference.sanitize 99 0 0
      (Koa.fresh Reference.create_with_image (Some Reference.alice) ∅) in
  let ctx := Koa.fresh Reference.rewrite_99 (Some Reference.alice) (db created) in
  ∃ saved : Post.t,
    db (@postsCtrl.update Reference.sanitize 0 ctx) !! 99%N = Some saved
    ∧ Post.body saved = "<p>new</p><img src=c.png>"
    ∧ Post.image saved = "<img src=c.png>".
Proof.
  intros created ctx.
  pose proof (@image_follows_raw_body Reference.sanitize Reference.driver)
    as (_ & Hupdate & _).
  assert (is_Some (db ctx !! 99%N)) as [post Hpost] by (vm_compute; eauto).
  assert (Joi.validate postsCtrl.update_schema (request_body (request ctx)) = None)
    as Hvalid by (vm_compute; reflexivity).
  assert (ObjectIds.of_string (params_id (request ctx)) = Some 99%N) as Hid
    by (vm_compute; reflexivity).
  assert (postsCtrl.string_at "body" (request_body (request ctx))
          = Some "<p>new</p><img src=c.png>") as Hraw by (vm_compute; reflexivity).
  destruct (Hupdate 0%nat ctx 99%N post _ Hvalid Hid Hpost Hraw)
    as (saved & Hsaved & Hbody & Himage).
  exists saved. split_and!; [exact Hsaved | exact Hbody | exact Himage].
Defined.

(* ===================================================================== *)
(** * Further properties of the controller *)
(* ===================================================================== *)

(** ** Excerpts and pages *)

Section more_listing.
Context `{!SanitizeHtml, !Driver}.

(** X1. Whatever the body and whatever the sanitizer gives back, an
    excerpt has fewer than 100 characters or exactly 103. *)
Theorem removeHtmlAndShorten_length (body : string) :
  (String.length (postsCtrl.removeHtmlAndShorten body) < 100)%nat
  ∨ String.length (postsCtrl.removeHtmlAndShorten body) = 103%nat.
Proof.
  unfold postsCtrl.removeHtmlAndShorten. case_bool_decide as Hshort; [by left|].
  right. rewrite length_append, length_slice0, Nat.min_l by lia. done.
Qed.

(** The documents [find] answers with are documents of the store that
    the query selects. *)
Lemma find_stored (q : Filter.t) (skip : Js.number) (limit : nat) (db0 : store)
    (found : list Post.t) (post : Post.t) :
  Model.find q skip limit db0 = Some found → post ∈ found →
  Model.matches q post = true ∧ ∃ id : ObjectId, db0 !! id = Some post.
Proof.
  intros Hfind Hin.
  assert (∃ k : nat, found = take limit (drop k (Model.selected q db0))) as (k & ->).
  { unfold Model.find in Hfind. destruct skip as [|z].
    - destruct skip_NaN as [k|]; simplify_eq/=. by exists k.
    - case_bool_decide; simplify_eq. by eexists. }
  apply subseteq_take, subseteq_drop in Hin. rename Hin into Hi.
  rewrite selected_matching in Hi. apply list_elem_of_filter in Hi as [Hmatch Hi].
  split; [done|]. apply list_elem_of_fmap in Hi as ([id p] & -> & Hi).
  exists id. by apply elem_of_map_to_list.
Qed.

(** X2. Every entry of a list answer is a document of the store with its
    body replaced by its excerpt: it carries the tag asked for, it is of
    the user asked for, and its body has at most 103 characters. *)
Theorem list_entries (req : Request) (user : option User.t) (db0 : store)
    (entries : list Post.t) (entry : Post.t) :
  body (response (postsCtrl.list (Koa.fresh req user db0))) = OfPosts entries →
  entry ∈ entries →
  ∃ (id : ObjectId) (post : Post.t),
    db0 !! id = Some post
    ∧ entry = Post.with_body (postsCtrl.removeHtmlAndShorten (Post.body post)) post
    ∧ (String.length (Post.body entry) ≤ 103)%nat
    ∧ (∀ tag : string, query_tag req = Some tag → tag ≠ "" → tag ∈ Post.tags entry)
    ∧ (∀ name : string, query_username req = Some name → name ≠ "" →
         Owner.username <$> Post.user entry = Some name).
Proof.
  unfold postsCtrl.list. fold (page_of req) (query_of req). simpl.
  destruct (Js.lt _ _); [done|].
  destruct (Model.find _ _ _ _) as [found|] eqn:Hfind; [|done]. simpl.
  intros [= <-] (post & -> & Hpost)%list_elem_of_fmap.
  destruct (find_stored _ _ _ _ _ _ Hfind Hpost) as (Hmatch & id & Hid).
  exists id, post. split_and!; [done|done| | |].
  - simpl. destruct (removeHtmlAndShorten_length (Post.body post)); lia.
  - intros tag Htag Hne. simpl. unfold Model.matches, query_of in Hmatch.
    rewrite Htag in Hmatch. destruct tag; [done|]. simpl in Hmatch.
    apply andb_prop in Hmatch as [_ Hmatch]. by apply bool_decide_eq_true in Hmatch.
  - intros name Hname Hne. simpl. unfold Model.matches, query_of in Hmatch.
    rewrite Hname in Hmatch. destruct name; [done|]. simpl in Hmatch.
    apply andb_prop in Hmatch as [Hmatch _]. by apply bool_decide_eq_true in Hmatch.
Qed.

(** X3. A page after the last one is answered 200 with no entry. *)
Theorem list_after_last_page (req : Request) (user : option User.t) (db0 : store)
    (p : Z) :
  page_of req = Js.Num p → 1 <= p →
  Z.of_nat (Model.countDocuments (query_of req) db0) <= (p - 1) * 20 →
  let ctx := postsCtrl.list (Koa.fresh req user db0) in
  status (response ctx) = 200 ∧ body (response ctx) = OfPosts [].
Proof.
  intros Hpage Hp Hcount ctx. subst ctx.
  rewrite (list_served req user db0 p _ Hpage Hp eq_refl). simpl.
  unfold Model.countDocuments in Hcount. rewrite drop_ge by lia. done.
Qed.

(** X4. [list] only reads: in every case it leaves the store and the
    looked-up post as they were, and it adds to the calls nothing but
    [find] and [countDocuments]. *)
Theorem list_reads_only (ctx : Ctx) :
  db (postsCtrl.list ctx) = db ctx
  ∧ state_post (postsCtrl.list ctx) = state_post ctx
  ∧ ∃ asked : list call,
      calls (postsCtrl.list ctx) = calls ctx ++ asked
      ∧ Forall (λ c, match c with Find _ _ _ | CountDocuments _ => True | _ => False end)
          asked.
Proof.
  unfold postsCtrl.list. destruct (Js.lt _ _); simpl.
  - split_and!; [done..|]. exists []. by rewrite app_nil_r.
  - destruct (Model.find _ _ _ _); simpl.
    + split_and!; [done..|]. eexists [_; _]. rewrite <- app_assoc.
      split; [done|]. by repeat constructor.
    + split_and!; [done..|]. eexists [_]. split; [done|]. by repeat constructor.
Qed.

(** X5. Two pages in a row hold, one after the other, the forty documents
    that follow those of the earlier pages: nothing is left out between
    them and nothing is on both. *)
Theorem list_next_page (req req' : Request) (user user' : option User.t)
    (db0 : store) (p : Z) (entries entries' : list Post.t) :
  page_of req = Js.Num p → page_of req' = Js.Num (p + 1) → 1 <= p →
  query_of req' = query_of req →
  body (response (postsCtrl.list (Koa.fresh req user db0))) = OfPosts entries →
  body (response (postsCtrl.list (Koa.fresh req' user' db0))) = OfPosts entries' →
  entries ++ entries' =
    summary <$> take 40 (drop (Z.to_nat ((p - 1) * 20))
                           (Model.selected (query_of req) db0)).
Proof.
  intros Hpage Hpage' Hp Hquery.
  rewrite (list_served req user db0 p _ Hpage Hp eq_refl).
  rewrite (list_served req' user' db0 (p + 1) _ Hpage' ltac:(lia) eq_refl). simpl.
  intros [= <-] [= <-]. rewrite Hquery, <- fmap_app. f_equal.
  replace (Z.to_nat ((p + 1 - 1) * 20)) with (Z.to_nat ((p - 1) * 20) + 20)%nat by lia.
  rewrite <- drop_drop. apply (take_take_drop _ 20 20).
Qed.

End more_listing.

(** The newest post tagged go, on page 1. *)
Lemma list_entries_witness :
  ∃ (id : ObjectId) (post : Post.t),
    Reference.go_posts !! id = Some post
    ∧ "go" ∈ Post.tags post
    ∧ Post._id post = 25%N.
Proof.
  pose (entries :=
    @summary Reference.sanitize
      <$> take 20 (Model.selected (query_of (Reference.go_page "1")) Reference.go_posts)).
  pose (entry := @summary Reference.sanitize (Reference.post 25 "<p>hello</p>" ["go"])).
  assert (body (response (@postsCtrl.list Reference.sanitize Reference.driver
                            (Koa.fresh (Reference.go_page "1") None Reference.go_posts)))
          = OfPosts entries) as Hbody by (vm_compute; reflexivity).
  assert (entry ∈ entries) as Hin by (vm_compute; apply list_elem_of_here).
  destruct (@list_entries Reference.sanitize Reference.driver (Reference.go_page "1")
              None Reference.go_posts entries entry Hbody Hin)
    as (id & post & Hpost & Hentry & _ & Htag & _).
  exists id, post. split_and!; [exact Hpost | |].
  - rewrite Hentry in Htag. exact (Htag "go" eq_refl ltac:(discriminate)).
  - apply (f_equal Post._id) in Hentry. symmetry. exact Hentry.
Defined.

(** Page 3 of the twenty-five posts tagged go. *)
Lemma list_after_last_page_witness :
  let ctx :=
    @postsCtrl.list Reference.sanitize Reference.driver
      (Koa.fresh (Reference.go_page "3") None Reference.go_posts) in
  status (response ctx) = 200 ∧ body (response ctx) = OfPosts [].
Proof.
  apply (@list_after_last_page Reference.sanitize Reference.driver
           (Reference.go_page "3") None Reference.go_posts 3).
  - vm_compute; reflexivity.
  - lia.
  - vm_compute. discriminate.
Defined.

(** Pages 1 and 2 of the posts tagged go hold all twenty-five. *)
Lemma list_next_page_witness :
  ∃ entries entries' : list Post.t,
    length entries = 20%nat ∧ length entries' = 5%nat
    ∧ entries ++ entries' =
        @summary Reference.sanitize
          <$> Model.selected (query_of (Reference.go_page "1")) Reference.go_posts.
Proof.
  pose (entries :=
    @summary Reference.sanitize
      <$> take 20 (Model.selected (query_of (Reference.go_page "1")) Reference.go_posts)).
  pose (entries' :=
    @summary Reference.sanitize
      <$> drop 20 (Model.selected (query_of (Reference.go_page "1")) Reference.go_posts)).
  exists entries, entries'.
  assert (body (response (@postsCtrl.list Reference.sanitize Reference.driver
                            (Koa.fresh (Reference.go_page "1") None Reference.go_posts)))
          = OfPosts entries) as Hbody by (vm_compute; reflexivity).
  assert (body (response (@postsCtrl.list Reference.sanitize Reference.driver
                            (Koa.fresh (Reference.go_page "2") None Reference.go_posts)))
          = OfPosts entries') as Hbody' by (vm_compute; reflexivity).
  assert (page_of (Reference.go_page "1") = Js.Num 1) as Hpage by (vm_compute; reflexivity).
  assert (page_of (Reference.go_page "2") = Js.Num (1 + 1)) as Hpage'
    by (vm_compute; reflexivity).
  pose proof (@list_next_page Reference.sanitize Reference.driver
                (Reference.go_page "1") (Reference.go_page "2") None None
                Reference.go_posts 1 entries entries' Hpage Hpage' ltac:(lia) eq_refl
                Hbody Hbody') as Hpages.
  split_and!; [vm_compute; reflexivity | vm_compute; reflexivity |].
  rewrite Hpages. vm_compute. reflexivity.
Defined.

(** ** The thumbnail extractor *)

Lemma starts_with_append_same (a m s : string) :
  Js.starts_with (a +:+ m) (a +:+ s) = Js.starts_with m s.
Proof.
  induction a as [|c a IH]; [done|]. rewrite !append_cons. simpl.
  by rewrite bool_decide_eq_true_2.
Qed.

Lemma drop_str_append (a s : string) : Js.drop_str (String.length a) (a +:+ s) = s.
Proof. induction a as [|c a IH]; [by destruct s|]. by rewrite append_cons. Qed.

Lemma backtrack_found (rest : nat → option string) (k j : nat) (m : string) :
  Js.backtrack rest k = Some (j, m) → rest j = Some m.
Proof.
  induction k as [|k IH]; simpl.
  - destruct (rest 0%nat) eqn:Hrest; [|done]. by intros [= <- <-].
  - destruct (rest (S k)) eqn:Hrest; [by intros [= <- <-]|]. apply IH.
Qed.

(** A match is a prefix of the text it was found at. *)
Lemma match_here_prefix (re : list Js.atom) (s m : string) :
  Js.match_here re s = Some m → Js.starts_with m s = true.
Proof.
  revert s m. induction re as [|[l|c] re IH]; intros s m; simpl.
  - by intros [= <-].
  - destruct (Js.starts_with l s) eqn:Hl; [|done].
    destruct (Js.match_here re _) as [m'|] eqn:Hm; [|done]. intros [= <-].
    apply starts_with_app in Hl as (rest & ->).
    rewrite drop_str_append in Hm. rewrite starts_with_append_same. by apply IH.
  - destruct (Js.backtrack _ _) as [[j m']|] eqn:Hback; [|done]. intros [= <-]. simpl.
    apply backtrack_found in Hback.
    rewrite <- (slice0_drop_str j s) at 2. rewrite starts_with_append_same.
    by apply IH.
Qed.

Lemma exec_includes (re : list Js.atom) (s m : string) :
  Js.exec re s = Some m → Html.includes m s = true.
Proof.
  induction s as [|c s IH]; rewrite exec_unfold;
    destruct (Js.match_here _ _) eqn:Hm.
  - intros [= <-]. apply match_here_prefix in Hm. simpl. by rewrite Hm.
  - done.
  - intros [= <-]. apply match_here_prefix in Hm.
    change (Html.includes s0 (String c s))
      with (Js.starts_with s0 (String c s) || Html.includes s0 s).
    by rewrite Hm.
  - intros Hlater.
    change (Html.includes m (String c s))
      with (Js.starts_with m (String c s) || Html.includes m s).
    rewrite IH by done. apply orb_true_r.
Qed.

Lemma ends_with_append_r (t a b : string) :
  ends_with t b = true → ends_with t (a +:+ b) = true.
Proof.
  intros Hb. induction a as [|c a IH]; [done|]. rewrite append_cons. simpl.
  rewrite IH. apply orb_true_r.
Qed.

Lemma includes_append_r (t a b : string) :
  Html.includes t b = true → Html.includes t (a +:+ b) = true.
Proof.
  intros Hb. induction a as [|c a IH]; [done|]. rewrite append_cons.
  change (Html.includes t (String c (a +:+ b)))
    with (Js.starts_with t (String c (a +:+ b)) || Html.includes t (a +:+ b)).
  rewrite IH. apply orb_true_r.
Qed.

Lemma match_here_Lit (l : string) (re : list Js.atom) (s m : string) :
  Js.match_here (Js.Lit l :: re) s = Some m →
  Js.starts_with l s = true
  ∧ ∃ m' : string,
      Js.match_here re (Js.drop_str (String.length l) s) = Some m' ∧ m = l +:+ m'.
Proof.
  simpl. destruct (Js.starts_with l s); [|done].
  destruct (Js.match_here re _) as [m'|]; [|done]. intros [= <-]. eauto.
Qed.

Lemma match_here_StarNot (c : ascii) (re : list Js.atom) (s m : string) :
  Js.match_here (Js.StarNot c :: re) s = Some m →
  ∃ (j : nat) (m' : string),
    Js.match_here re (Js.drop_str j s) = Some m' ∧ m = Js.slice0 j s +:+ m'.
Proof.
  simpl. destruct (Js.backtrack _ _) as [[j m']|] eqn:Hback; [|done].
  intros [= <-]. apply backtrack_found in Hback. eauto.
Qed.

(** The shape of what the image pattern matches. *)
Lemma match_here_imgReg_shape (s m : string) :
  Js.match_here postsCtrl.imgReg s = Some m →
  Js.starts_with "<img" s = true
  ∧ Js.starts_with "<img" m = true ∧ ends_with ">" m = true
  ∧ Html.includes "src=" m = true.
Proof.
  unfold postsCtrl.imgReg.
  intros (Hs & m1 & (j1 & m2 & (_ & m3 & (j2 & m4 & (_ & m5 & Hnil & ->)
            %match_here_Lit & ->)%match_here_StarNot & ->)
            %match_here_Lit & ->)%match_here_StarNot & ->)%match_here_Lit.
  injection Hnil as <-.
  split_and!; [done|done| |].
  - apply (ends_with_append_r ">" "<img"), ends_with_append_r.
    apply (ends_with_append_r ">" "src="), ends_with_append_r. done.
  - apply (includes_append_r "src=" "<img"), includes_append_r. done.
Qed.

Lemma exec_imgReg_shape (s m : string) :
  Js.exec postsCtrl.imgReg s = Some m →
  Html.includes "<img" s = true
  ∧ Js.starts_with "<img" m = true ∧ ends_with ">" m = true
  ∧ Html.includes "src=" m = true.
Proof.
  induction s as [|c s IH]; rewrite exec_unfold;
    destruct (Js.match_here _ _) eqn:Hm; try done.
  - intros [= <-]. apply match_here_imgReg_shape in Hm as (Hs & ?).
    split; [|done].
    change (Html.includes "<img" (String c s))
      with (Js.starts_with "<img" (String c s) || Html.includes "<img" s).
    by rewrite Hs.
  - intros (Hs & ?)%IH. split; [|done].
    change (Html.includes "<img" (String c s))
      with (Js.starts_with "<img" (String c s) || Html.includes "<img" s).
    rewrite Hs. apply orb_true_r.
Qed.

(** The image [parseImageToBody] falls back to. *)
Lemma parseImageToBody_cases (random : nat) (body : option string) :
  (∃ m : string,
     Js.exec postsCtrl.imgReg (Js.to_string body) = Some m
     ∧ postsCtrl.parseImageToBody random body = m)
  ∨ (Js.exec postsCtrl.imgReg (Js.to_string body) = None
     ∧ postsCtrl.parseImageToBody random body = postsCtrl.parseImageToBody random None).
Proof.
  unfold postsCtrl.parseImageToBody at 1 2.
  destruct (Js.exec _ (Js.to_string body)) as [m|]; [left; eauto|right]. done.
Qed.

(** X6. The image of a body is either a piece of that body that starts
    with [<img], ends with [>] and has [src=] in it, and then it does not
    depend on the random index; or it is the fallback image of that
    index. *)
Theorem parseImageToBody_image (random : nat) (body : string) :
  let image := postsCtrl.parseImageToBody random (Some body) in
  (Html.includes image body = true
   ∧ Js.starts_with "<img" image = true
   ∧ ends_with ">" image = true
   ∧ Html.includes "src=" image = true
   ∧ ∀ other : nat, postsCtrl.parseImageToBody other (Some body) = image)
  ∨ image =
      "<img src=" +:+ postsCtrl.dquote +:+ "http://localhost:4000/"
        +:+ default "undefined" (postsCtrl.imgArr !! random)
        +:+ postsCtrl.dquote +:+ "/>".
Proof.
  intros image. subst image.
  destruct (parseImageToBody_cases random (Some body)) as [(m & Hm & ->)|[_ ->]];
    [left|right; apply parseImageToBody_undefined].
  destruct (exec_imgReg_shape _ _ Hm) as (_ & ? & ? & ?).
  split_and!; [by apply exec_includes in Hm|done..|].
  intros other. unfold postsCtrl.parseImageToBody. simpl in *. by rewrite Hm.
Qed.

(** X7. A body in which [<img] does not occur gets one of the five
    fallback images when the random index is below five. *)
Theorem parseImageToBody_without_img (random : nat) (body : string) :
  Html.includes "<img" body = false → (random < 5)%nat →
  ∃ name : string,
    name ∈ postsCtrl.imgArr
    ∧ postsCtrl.parseImageToBody random (Some body) =
        "<img src=" +:+ postsCtrl.dquote +:+ "http://localhost:4000/" +:+ name
          +:+ postsCtrl.dquote +:+ "/>".
Proof.
  intros Hnone Hrandom.
  destruct (postsCtrl.imgArr !! random) as [name|] eqn:Hname.
  - exists name. split; [by eapply list_elem_of_lookup_2|].
    destruct (parseImageToBody_cases random (Some body)) as [(m & Hm & _)|[_ ->]].
    + apply exec_imgReg_shape in Hm as (Himg & _). simpl in Himg. congruence.
    + rewrite parseImageToBody_undefined, Hname. done.
  - apply lookup_ge_None in Hname. simpl in Hname. lia.
Qed.

(** A body of one paragraph, with random index 2. *)
Lemma parseImageToBody_without_img_witness :
  ∃ name : string,
    name ∈ postsCtrl.imgArr
    ∧ postsCtrl.parseImageToBody 2 (Some "<p>hi</p>") =
        "<img src=" +:+ postsCtrl.dquote +:+ "http://localhost:4000/" +:+ name
          +:+ postsCtrl.dquote +:+ "/>".
Proof.
  apply (parseImageToBody_without_img 2 "<p>hi</p>"); [reflexivity | lia].
Defined.

(** ** Looking a post up *)

Section lookup.
Context `{!SanitizeHtml}.

(** X8. An id that is not the text of an ObjectId is answered 400 by the
    read, the delete and the update route alike, without a call to the
    store. *)
Theorem getPostById_invalid_id (req : Request) (reader : option User.t)
    (requester : User.t) (db0 : store) (random : nat) :
  ObjectIds.isValid (params_id req) = false →
  let answers :=
    [posts.get_id (Koa.fresh req reader db0);
     posts.delete_id (Koa.fresh req (Some requester) db0);
     posts.patch_id random (Koa.fresh req (Some requester) db0)] in
  Forall (λ ctx, status (response ctx) = 400 ∧ body (response ctx) = Unset
                 ∧ db ctx = db0 ∧ calls ctx = []) answers.
Proof.
  intros Hid answers. subst answers.
  unfold posts.get_id, posts.delete_id, posts.patch_id, posts.checkLoggedIn,
    postsCtrl.getPostById. simpl. rewrite Hid. simpl.
  repeat constructor.
Qed.

(** X9. An id the store has no document for is answered 404 by the read,
    the delete and the update route alike, after the one lookup; the
    store is left as it was. *)
Theorem getPostById_not_found (req : Request) (reader : option User.t)
    (requester : User.t) (db0 : store) (random : nat) (id : ObjectId) :
  ObjectIds.of_string (params_id req) = Some id →
  db0 !! id = None →
  let answers :=
    [posts.get_id (Koa.fresh req reader db0);
     posts.delete_id (Koa.fresh req (Some requester) db0);
     posts.patch_id random (Koa.fresh req (Some requester) db0)] in
  Forall (λ ctx, status (response ctx) = 404 ∧ body (response ctx) = Unset
                 ∧ db ctx = db0 ∧ calls ctx = [FindById id]) answers.
Proof.
  intros Hid Hnone answers. subst answers.
  unfold posts.get_id, posts.delete_id, posts.patch_id, posts.checkLoggedIn,
    postsCtrl.getPostById, ObjectIds.isValid, Model.findById. simpl.
  rewrite Hid. simpl. rewrite Hnone. repeat constructor.
Qed.

End lookup.

(** The id [abc] on the three routes. *)
Lemma getPostById_invalid_id_witness :
  let req := Reference.request "abc" None None None ∅ in
  Forall (λ ctx, status (response ctx) = 400 ∧ body (response ctx) = Unset
                 ∧ db ctx = Reference.go_posts ∧ calls ctx = [])
    [posts.get_id (Koa.fresh req None Reference.go_posts);
     posts.delete_id (Koa.fresh req (Some Reference.alice) Reference.go_posts);
     @posts.patch_id Reference.sanitize 0
       (Koa.fresh req (Some Reference.alice) Reference.go_posts)].
Proof.
  apply (@getPostById_invalid_id Reference.sanitize
           (Reference.request "abc" None None None ∅) None Reference.alice
           Reference.go_posts 0).
  reflexivity.
Defined.

(** The id 99 in a store that has no such post. *)
Lemma getPostById_not_found_witness :
  Forall (λ ctx, status (response ctx) = 404 ∧ body (response ctx) = Unset
                 ∧ db ctx = Reference.go_posts ∧ calls ctx = [FindById 99%N])
    [posts.get_id (Koa.fresh Reference.read_99 None Reference.go_posts);
     posts.delete_id (Koa.fresh Reference.read_99 (Some Reference.alice) Reference.go_posts);
     @posts.patch_id Reference.sanitize 0
       (Koa.fresh Reference.read_99 (Some Reference.alice) Reference.go_posts)].
Proof.
  apply (@getPostById_not_found Reference.sanitize Reference.read_99 None
           Reference.alice Reference.go_posts 0 99%N);
    vm_compute; reflexivity.
Defined.

(** ** The routes of the owner *)

Section owner.
Context `{!SanitizeHtml}.

(** The chain up to the handler, for the owner of the post. *)
Lemma owner_passes (req : Request) (requester : User.t) (db0 : store)
    (id : ObjectId) (post : Post.t) (owner : Owner.t) (handler : Ctx → Ctx) :
  ObjectIds.of_string (params_id req) = Some id →
  db0 !! id = Some post →
  Post.user post = Some owner →
  ObjectIds.toString (Owner._id owner) = User._id requester →
  posts.checkLoggedIn (Koa.fresh req (Some requester) db0) (λ ctx,
    postsCtrl.getPostById ctx (λ ctx, postsCtrl.checkOwnPost ctx handler))
  = handler (Koa.set_post post
               (Koa.called (FindById id) db0 (Koa.fresh req (Some requester) db0))).
Proof.
  intros Hid Hpost Howner Hsame. unfold posts.checkLoggedIn. simpl.
  rewrite (getPostById_found _ _ id post) by done.
  unfold postsCtrl.checkOwnPost. simpl. rewrite Howner.
  by rewrite bool_decide_eq_false_2 by (by intros []).
Qed.

(** X10. The owner's delete request removes the post and nothing else and
    is answered 204; a read of the same id is answered 404 from then
    on. *)
Theorem delete_by_owner (req : Request) (requester : User.t) (reader : option User.t)
    (db0 : store) (id : ObjectId) (post : Post.t) (owner : Owner.t) :
  ObjectIds.of_string (params_id req) = Some id →
  db0 !! id = Some post →
  Post.user post = Some owner →
  ObjectIds.toString (Owner._id owner) = User._id requester →
  let deleted := posts.delete_id (Koa.fresh req (Some requester) db0) in
  status (response deleted) = 204
  ∧ db deleted = delete id db0
  ∧ calls deleted = [FindById id; FindByIdAndRemove id]
  ∧ status (response (posts.get_id (Koa.fresh req reader (db deleted)))) = 404.
Proof.
  intros Hid Hpost Howner Hsame deleted. subst deleted.
  unfold posts.delete_id. rewrite (owner_passes req requester db0 id post owner) by done.
  unfold postsCtrl.remove. simpl. rewrite Hid. simpl. split_and!; [done..|].
  unfold posts.get_id, postsCtrl.getPostById, ObjectIds.isValid, Model.findById. simpl.
  by rewrite Hid, lookup_delete_eq.
Qed.

(** X11. The owner's update request with a valid input is answered 200
    with the document as it is stored from then on; the update leaves the
    id, the counter, the date and the user of the post as they were, and
    every other document. *)
Theorem patch_by_owner (req : Request) (requester : User.t) (db0 : store)
    (random : nat) (id : ObjectId) (post : Post.t) (owner : Owner.t) :
  ObjectIds.of_string (params_id req) = Some id →
  db0 !! id = Some post →
  Post.user post = Some owner →
  ObjectIds.toString (Owner._id owner) = User._id requester →
  Joi.validate postsCtrl.update_schema (request_body req) = None →
  let patched := posts.patch_id random (Koa.fresh req (Some requester) db0) in
  ∃ saved : Post.t,
    status (response patched) = 200
    ∧ body (response patched) = OfPost saved
    ∧ db patched = <[id := saved]> db0
    ∧ Post._id saved = Post._id post
    ∧ Post.count saved = Post.count post
    ∧ Post.publishedDate saved = Post.publishedDate post
    ∧ Post.user saved = Post.user post.
Proof.
  intros Hid Hpost Howner Hsame Hvalid patched. subst patched.
  unfold posts.patch_id. rewrite (owner_passes req requester db0 id post owner) by done.
  edestruct (update_found random
               (Koa.set_post post
                  (Koa.called (FindById id) db0 (Koa.fresh req (Some requester) db0)))
               id post) as (nextData & _ & _ & _ & _ & Hcount & Hdate & Huser & ->);
    [done..|].
  exists (Model.apply_patch nextData post). simpl.
  unfold Model.apply_patch. simpl. rewrite Hcount, Hdate, Huser. done.
Qed.

(** X12. A delete or an update request that changes the store comes from
    the user of the post it names: the text of that user's id is the id
    of the requester. *)
Theorem change_requires_owner (req : Request) (requester : User.t) (db0 : store)
    (random : nat) (ctx : Ctx) :
  ctx ∈ [posts.delete_id (Koa.fresh req (Some requester) db0);
         posts.patch_id random (Koa.fresh req (Some requester) db0)] →
  db ctx ≠ db0 →
  ∃ (id : ObjectId) (post : Post.t) (owner : Owner.t),
    ObjectIds.of_string (params_id req) = Some id
    ∧ db0 !! id = Some post
    ∧ Post.user post = Some owner
    ∧ ObjectIds.toString (Owner._id owner) = User._id requester.
Proof.
  intros Hctx Hchanged.
  assert (db ctx = db0 ∨ ∃ (id : ObjectId) (post : Post.t) (owner : Owner.t),
            ObjectIds.of_string (params_id req) = Some id ∧ db0 !! id = Some post
            ∧ Post.user post = Some owner
            ∧ ObjectIds.toString (Owner._id owner) = User._id requester)
    as [?|?]; [|done..].
  apply elem_of_cons in Hctx as [->|Hctx];
    [|apply elem_of_cons in Hctx as [->|Hctx]; [|by apply elem_of_nil in Hctx]].
  - unfold posts.delete_id, posts.checkLoggedIn, postsCtrl.getPostById,
      ObjectIds.isValid, Model.findById, postsCtrl.checkOwnPost. simpl.
    destruct (ObjectIds.of_string _) as [id|] eqn:Hid; [|by left]. simpl.
    destruct (db0 !! id) as [post|] eqn:Hpost; [|by left]. simpl.
    destruct (Post.user post) as [owner|] eqn:Howner; [|by left].
    case_bool_decide as Hsame; [by left|]. right. exists id, post, owner.
    split_and!; [done..|]. by destruct (decide (ObjectIds.toString (Owner._id owner)
                                                  = User._id requester)).
  - unfold posts.patch_id, posts.checkLoggedIn, postsCtrl.getPostById,
      ObjectIds.isValid, Model.findById, postsCtrl.checkOwnPost. simpl.
    destruct (ObjectIds.of_string _) as [id|] eqn:Hid; [|by left]. simpl.
    destruct (db0 !! id) as [post|] eqn:Hpost; [|by left]. simpl.
    destruct (Post.user post) as [owner|] eqn:Howner; [|by left].
    case_bool_decide as Hsame; [by left|]. right. exists id, post, owner.
    split_and!; [done..|]. by destruct (decide (ObjectIds.toString (Owner._id owner)
                                                  = User._id requester)).
Qed.

End owner.

(** Alice deletes her post 1. *)
Lemma delete_by_owner_witness :
  let req := Reference.request "000000000000000000000001" None None None ∅ in
  let deleted := posts.delete_id (Koa.fresh req (Some Reference.alice) Reference.go_posts) in
  status (response deleted) = 204
  ∧ db deleted = delete 1%N Reference.go_posts
  ∧ calls deleted = [FindById 1%N; FindByIdAndRemove 1%N]
  ∧ status (response (posts.get_id (Koa.fresh req None (db deleted)))) = 404.
Proof.
  apply (delete_by_owner (Reference.request "000000000000000000000001" None None None ∅)
           Reference.alice None Reference.go_posts 1%N
           (Reference.post 1 "<p>hello</p>" ["go"]) (Owner.mk 10 "alice"));
    vm_compute; reflexivity.
Defined.

(** Alice gives her post 1 new tags. *)
Lemma patch_by_owner_witness :
  let patched :=
    @posts.patch_id Reference.sanitize 0
      (Koa.fresh Reference.tags_only (Some Reference.alice) Reference.go_posts) in
  ∃ saved : Post.t,
    status (response patched) = 200
    ∧ body (response patched) = OfPost saved
    ∧ Post.count saved = Some 0
    ∧ Post.user saved = Some (Owner.mk 10 "alice").
Proof.
  intros patched.
  destruct (@patch_by_owner Reference.sanitize Reference.tags_only Reference.alice
              Reference.go_posts 0%nat 1%N (Reference.post 1 "<p>hello</p>" ["go"])
              (Owner.mk 10 "alice"))
    as (saved & Hstatus & Hbody & _ & _ & Hcount & _ & Huser);
    [vm_compute; reflexivity..|].
  exists saved. split_and!; [exact Hstatus | exact Hbody | exact Hcount | exact Huser].
Defined.

(** Alice's delete of post 1 changes the store: she is its user. *)
Lemma change_requires_owner_witness :
  ∃ (id : ObjectId) (post : Post.t) (owner : Owner.t),
    Reference.go_posts !! id = Some post
    ∧ Post.user post = Some owner
    ∧ ObjectIds.toString (Owner._id owner) = User._id Reference.alice.
Proof.
  pose (req := Reference.request "000000000000000000000001" None None None ∅).
  pose (deleted := posts.delete_id (Koa.fresh req (Some Reference.alice) Reference.go_posts)).
  assert (db deleted ≠ Reference.go_posts) as Hchanged.
  { intros Hsame. apply (f_equal (lookup 1%N)) in Hsame.
    vm_compute in Hsame. discriminate Hsame. }
  destruct (@change_requires_owner Reference.sanitize req Reference.alice
              Reference.go_posts 0%nat deleted (list_elem_of_here _ _) Hchanged)
    as (id & post & owner & _ & Hpost & Howner & Hsame).
  exists id, post, owner. split_and!; [exact Hpost | exact Howner | exact Hsame].
Defined.

(** ** What the schemas let through *)

Lemma first_error_None (l : list (option Joi.error)) :
  Joi.first_error l = None → Forall (λ e, e = None) l.
Proof.
  induction l as [|[e|] l IH]; simpl; [constructor|done|].
  intros Hl. constructor; [done|by apply IH].
Qed.

(** An object that passes a schema passes the check of each key of the
    schema and has no other key. *)
Lemma validate_None (keys : list Joi.key) (obj : gmap string value) :
  Joi.validate keys obj = None →
  (∀ k : Joi.key, k ∈ keys → Joi.check_key obj k = None)
  ∧ (∀ k : string, is_Some (obj !! k) → k ∈ Joi.name <$> keys).
Proof.
  unfold Joi.validate.
  destruct (Joi.first_error _) eqn:Hfirst; [done|].
  destruct (filter _ _) eqn:Hfilter; [|done]. intros _. split.
  - intros k Hk. apply first_error_None in Hfirst. rewrite Forall_forall in Hfirst.
    apply Hfirst, list_elem_of_fmap. eauto.
  - intros k [v Hv]. destruct (decide (k ∈ Joi.name <$> keys)) as [|Hunknown]; [done|].
    exfalso. eapply (filter_nil_not_elem_of _ _ k Hfilter Hunknown).
    apply list_elem_of_fmap. exists (k, v). split; [done|]. by apply elem_of_map_to_list.
Qed.

Lemma check_string_None (k : string) (i : option nat) (v : value) :
  Joi.check Joi.string_ k i v = None → ∃ s : string, v = VString s ∧ s ≠ "".
Proof.
  destruct v as [| | |[|c s]| |]; simpl; try done. intros _. by exists (String c s).
Qed.

Lemma check_strings_None (k : string) (i : option nat) (v : value) :
  Joi.check (Joi.array_items Joi.string_) k i v = None →
  ∃ tags : list string, v = VArray (VString <$> tags) ∧ Forall (λ tag, tag ≠ "") tags.
Proof.
  destruct v as [| | | |items|]; simpl; try done. generalize 0%nat.
  induction items as [|item items IH]; intros n Hitems.
  - by exists [].
  - destruct item as [| | |[|c tag]| |]; simpl in Hitems; try done.
    destruct (IH _ Hitems) as (tags & [= ->] & Htags).
    exists (String c tag :: tags). split; [done|]. by constructor.
Qed.

(** The inputs that pass the schema of [write] are the objects
    [{ title, body, tags }] of strings that are not empty. *)
Lemma validate_write_schema (input : gmap string value) :
  Joi.validate postsCtrl.write_schema input = None →
  ∃ (title raw : string) (tags : list string),
    input = create_input title raw tags
    ∧ title ≠ "" ∧ raw ≠ "" ∧ Forall (λ tag, tag ≠ "") tags.
Proof.
  intros [Hkeys Hknown]%validate_None.
  pose proof (Hkeys _ (list_elem_of_here _ _)) as Htitle.
  pose proof (Hkeys _ (list_elem_of_further _ _ _ (list_elem_of_here _ _))) as Hbody.
  pose proof (Hkeys _ (list_elem_of_further _ _ _
                         (list_elem_of_further _ _ _ (list_elem_of_here _ _)))) as Htags.
  unfold Joi.check_key in Htitle, Hbody, Htags.
  cbn [Joi.name Joi.type Joi.required] in Htitle, Hbody, Htags.
  destruct (input !! "title") as [vt|] eqn:Et; [|done].
  destruct (input !! "body") as [vb|] eqn:Eb; [|done].
  destruct (input !! "tags") as [vg|] eqn:Eg; [|done].
  apply check_string_None in Htitle as (title & -> & ?).
  apply check_string_None in Hbody as (raw & -> & ?).
  apply check_strings_None in Htags as (tags & -> & ?).
  exists title, raw, tags. split_and!; [|done..].
  apply map_eq. intros k.
  destruct (decide (k = "title")) as [->|?]; [by rewrite create_input_title|].
  destruct (decide (k = "body")) as [->|?]; [by rewrite create_input_body|].
  destruct (decide (k = "tags")) as [->|?]; [by rewrite create_input_tags|].
  transitivity (@None value).
  - apply eq_None_not_Some. intros Hk%Hknown. simpl in Hk.
    repeat (apply elem_of_cons in Hk as [?|Hk]; [done|]). by apply elem_of_nil in Hk.
  - symmetry. unfold create_input. by simplify_map_eq.
Qed.

Section inputs.
Context `{!SanitizeHtml}.

(** X13. A create request is answered 200 only when its input is an
    object of a title, a body and tags and nothing else, all of them
    strings that are not empty, and the new id was not in the store; the
    answer is then in the store under that id. *)
Theorem write_ok_only_valid (id : ObjectId) (now : Z) (random : nat) (ctx : Ctx) :
  status (response (postsCtrl.write id now random ctx)) = 200 →
  ∃ (title raw : string) (tags : list string) (post : Post.t),
    request_body (request ctx) = create_input title raw tags
    ∧ title ≠ "" ∧ raw ≠ "" ∧ Forall (λ tag, tag ≠ "") tags
    ∧ db ctx !! id = None
    ∧ body (response (postsCtrl.write id now random ctx)) = OfPost post
    ∧ db (postsCtrl.write id now random ctx) !! id = Some post
    ∧ Post.title post = title ∧ Post.tags post = tags.
Proof.
  unfold postsCtrl.write.
  destruct (Joi.validate _ _) eqn:Hvalid; [done|].
  apply validate_write_schema in Hvalid as (title & raw & tags & Hinput & ? & ? & ?).
  rewrite Hinput, strings_at_create. unfold postsCtrl.string_at.
  rewrite create_input_title, create_input_body.
  destruct (postsCtrl.cast_user _) as [user|]; [|done].
  unfold Model.save. simpl. destruct (db ctx !! id) eqn:Hfresh; [done|]. simpl.
  intros _. eexists title, raw, tags, _.
  split_and!; [done..|reflexivity|by rewrite lookup_insert_eq|done|done].
Qed.

(** X14. A create request whose input is not such an object (a key is
    missing or of another type, a string is empty, there is one key
    more) is answered 400 with the error of the validation; the store is
    not called. *)
Theorem write_invalid_input (id : ObjectId) (now : Z) (random : nat) (ctx : Ctx) :
  (∀ (title raw : string) (tags : list string),
     request_body (request ctx) = create_input title raw tags →
     title = "" ∨ raw = "" ∨ Exists (λ tag, tag = "") tags) →
  let answer := postsCtrl.write id now random ctx in
  status (response answer) = 400
  ∧ (∃ e : Joi.error, body (response answer) = OfError e)
  ∧ db answer = db ctx ∧ calls answer = calls ctx.
Proof.
  intros Hshape answer. subst answer. unfold postsCtrl.write.
  destruct (Joi.validate _ _) as [e|] eqn:Hvalid; [simpl; eauto 6|].
  apply validate_write_schema in Hvalid as (title & raw & tags & Hinput & ? & ? & Htags).
  destruct (Hshape _ _ _ Hinput) as [?|[?|Hempty]]; [done..|].
  apply Exists_exists in Hempty as (tag & Hin & ->).
  rewrite Forall_forall in Htags. by destruct (Htags _ Hin).
Qed.

(** X15. An update request whose input has a key other than title, body
    and tags (the counter, the image, the user, the id) is answered 400;
    the store is not called. *)
Theorem update_unknown_key (random : nat) (ctx : Ctx) (k : string) :
  is_Some (request_body (request ctx) !! k) →
  k ∉ ["title"; "body"; "tags"] →
  let answer := postsCtrl.update random ctx in
  status (response answer) = 400
  ∧ (∃ e : Joi.error, body (response answer) = OfError e)
  ∧ db answer = db ctx ∧ calls answer = calls ctx.
Proof.
  intros Hk Hunknown answer. subst answer. unfold postsCtrl.update.
  destruct (Joi.validate _ _) as [e|] eqn:Hvalid; [simpl; eauto 6|].
  apply validate_None in Hvalid as [_ Hknown]. by destruct (Hunknown (Hknown k Hk)).
Qed.

End inputs.

(** The create request of the reference data, answered 200. *)
Lemma write_ok_only_valid_witness :
  let ctx := Koa.fresh Reference.create_hello (Some Reference.alice) ∅ in
  ∃ (title raw : string) (tags : list string) (post : Post.t),
    request_body Reference.create_hello = create_input title raw tags
    ∧ body (response (@postsCtrl.write Reference.sanitize 99 0 0 ctx)) = OfPost post
    ∧ Post.title post = title ∧ Post.tags post = tags.
Proof.
  intros ctx.
  assert (status (response (@postsCtrl.write Reference.sanitize 99 0 0 ctx)) = 200)
    as Hstatus by (vm_compute; reflexivity).
  destruct (@write_ok_only_valid Reference.sanitize 99%N 0 0%nat ctx Hstatus)
    as (title & raw & tags & post & Hinput & _ & _ & _ & _ & Hbody & _ & Htitle & Htags).
  exists title, raw, tags, post.
  split_and!; [exact Hinput | exact Hbody | exact Htitle | exact Htags].
Defined.

(** A create request without tags. *)
Lemma write_invalid_input_witness :
  let answer :=
    @postsCtrl.write Reference.sanitize 99 0 0
      (Koa.fresh Reference.create_without_tags (Some Reference.alice) ∅) in
  status (response answer) = 400
  ∧ (∃ e : Joi.error, body (response answer) = OfError e)
  ∧ db answer = ∅ ∧ calls answer = [].
Proof.
  apply (@write_invalid_input Reference.sanitize 99%N 0 0%nat
           (Koa.fresh Reference.create_without_tags (Some Reference.alice) ∅)).
  intros title raw tags Hinput. exfalso.
  apply (f_equal (lookup "tags")) in Hinput.
  rewrite create_input_tags in Hinput. vm_compute in Hinput. discriminate Hinput.
Defined.

(** An update of post 1 that names the counter. *)
Lemma update_unknown_key_witness :
  let answer :=
    @postsCtrl.update Reference.sanitize 0
      (Koa.fresh Reference.recount_1 (Some Reference.alice) Reference.go_posts) in
  status (response answer) = 400
  ∧ (∃ e : Joi.error, body (response answer) = OfError e)
  ∧ db answer = Reference.go_posts ∧ calls answer = [].
Proof.
  apply (@update_unknown_key Reference.sanitize 0%nat
           (Koa.fresh Reference.recount_1 (Some Reference.alice) Reference.go_posts)
           "count").
  - vm_compute. eauto.
  - intros Hin. repeat (apply elem_of_cons in Hin as [Hin|Hin]; [discriminate Hin|]).
    by apply elem_of_nil in Hin.
Defined.

(** ** What the handlers leave alone *)

Section frames.
Context `{!SanitizeHtml}.

(** X16. Whatever the request, [update] neither adds nor removes a
    document; it leaves the id, the counter, the date and the user of
    every document as they were, and every document but the one the
    request names wholly as it was. *)
Theorem update_touches_one (random : nat) (ctx : Ctx) (key : ObjectId) (post : Post.t) :
  db ctx !! key = Some post →
  dom (db (postsCtrl.update random ctx)) = dom (db ctx)
  ∧ ∃ saved : Post.t,
      db (postsCtrl.update random ctx) !! key = Some saved
      ∧ Post._id saved = Post._id post
      ∧ Post.count saved = Post.count post
      ∧ Post.publishedDate saved = Post.publishedDate post
      ∧ Post.user saved = Post.user post
      ∧ (ObjectIds.of_string (params_id (request ctx)) ≠ Some key → saved = post).
Proof.
  intros Hpost. unfold postsCtrl.update.
  destruct (Joi.validate _ _); [simpl; eauto 10|].
  destruct (ObjectIds.of_string _) as [id|]; [|simpl; eauto 10].
  unfold Model.findByIdAndUpdate.
  destruct (db ctx !! id) as [target|] eqn:Htarget; simpl; [|eauto 10].
  split; [by apply dom_insert_lookup_L|].
  destruct (decide (id = key)) as [->|Hother].
  - rewrite lookup_insert_eq. simplify_eq. eexists. split; [done|].
    unfold Model.apply_patch. simpl. split_and!; done.
  - rewrite lookup_insert_ne by done. exists post. split_and!; [done..|]. done.
Qed.

(** X17. Whatever the request, [write] leaves every document of the
    store as it was, and the only id it can add is the new one. *)
Theorem write_keeps_documents (id : ObjectId) (now : Z) (random : nat) (ctx : Ctx)
    (key : ObjectId) (post : Post.t) :
  db ctx !! key = Some post →
  db (postsCtrl.write id now random ctx) !! key = Some post
  ∧ dom (db (postsCtrl.write id now random ctx)) ⊆ {[id]} ∪ dom (db ctx).
Proof.
  intros Hpost. unfold postsCtrl.write.
  repeat case_match; simpl; try (split; [done|apply union_subseteq_r]).
  unfold Model.save in *. simpl in *. case_match; simplify_eq.
  split; [|by rewrite dom_insert_L].
  rewrite lookup_insert_ne; [done|]. intros ->. congruence.
Qed.

(** X18. [read] raises a counter only when it is not negative: a post
    with a negative counter is answered and stored as it is. *)
Theorem read_negative_count (ctx : Ctx) (post : Post.t) (c : Z) :
  state_post ctx = Some post →
  db ctx !! Post._id post = Some post →
  Post.count post = Some c → c < 0 →
  body (response (postsCtrl.read ctx)) = OfPost post
  ∧ db (postsCtrl.read ctx) = db ctx.
Proof.
  intros Hstate Hdb Hcount Hc.
  destruct (read_db ctx post Hstate Hdb) as (c' & Hcases & ->).
  assert (c' = c) as -> by (destruct Hcases as [[? _]|[(? & ? & ? & _)|(? & ? & _ & ?)]];
                            simplify_eq; lia).
  assert (Post.with_count (Some c) post = post) as ->
    by (destruct post; simpl in *; by subst).
  simpl. split; [done|]. by apply insert_id.
Qed.

End frames.

(** Post 2 after an update of post 1. *)
Lemma update_touches_one_witness :
  let ctx := Koa.fresh Reference.tags_only (Some Reference.alice) Reference.go_posts in
  db (@postsCtrl.update Reference.sanitize 0 ctx) !! 2%N
  = Some (Reference.post 2 "<p>hello</p>" ["go"]).
Proof.
  intros ctx.
  destruct (@update_touches_one Reference.sanitize 0%nat ctx 2%N
              (Reference.post 2 "<p>hello</p>" ["go"]))
    as (_ & saved & Hsaved & _ & _ & _ & _ & Hother); [vm_compute; reflexivity|].
  rewrite Hsaved. f_equal. apply Hother. vm_compute. discriminate.
Defined.

(** Post 1 after a create request. *)
Lemma write_keeps_documents_witness :
  let ctx := Koa.fresh Reference.create_hello (Some Reference.alice) Reference.go_posts in
  db (@postsCtrl.write Reference.sanitize 99 0 0 ctx) !! 1%N
  = Some (Reference.post 1 "<p>hello</p>" ["go"]).
Proof.
  intros ctx.
  apply (@write_keeps_documents Reference.sanitize 99%N 0 0%nat ctx 1%N).
  vm_compute; reflexivity.
Defined.

(** A read of a post with counter -3. *)
Lemma read_negative_count_witness :
  body (response (postsCtrl.read Reference.reading_in_debt)) = OfPost Reference.in_debt
  ∧ db (postsCtrl.read Reference.reading_in_debt) = db Reference.reading_in_debt.
Proof.
  apply (read_negative_count Reference.reading_in_debt Reference.in_debt (-3));
    [vm_compute; reflexivity.. | lia].
Defined.

(** ** The text of an ObjectId *)

Lemma lower_hex_digit (c : ascii) :
  (bool_decide (48 <= Ascii.N_of_ascii c <= 57)%N
   || bool_decide (97 <= Ascii.N_of_ascii c <= 102)%N) = true →
  ∃ d : N, ObjectIds.hex_value c = Some d ∧ (d < 16)%N ∧ ObjectIds.hex_digit d = c.
Proof.
  destruct c as [[] [] [] [] [] [] [] []]; vm_compute; try done;
    intros _; eexists; split_and!; reflexivity.
Qed.

Lemma hex_digits_of_hex (s : string) (acc : N) :
  lower_hex s = true →
  ∃ n : N,
    ObjectIds.of_hex acc s = Some n
    ∧ ∀ (j : nat) (tail : string),
        ObjectIds.hex_digits (String.length s + j) n tail
        = ObjectIds.hex_digits j acc (s +:+ tail).
Proof.
  revert acc. induction s as [|c s IH]; intros acc Hs.
  - exists acc. split; [done|]. done.
  - simpl in Hs. apply andb_prop in Hs as [Hc Hs].
    destruct (lower_hex_digit c Hc) as (d & Hd & Hlt & Hchar).
    destruct (IH (16 * acc + d)%N Hs) as (n & Hn & Hdigits).
    exists n. split; [simpl; by rewrite Hd|].
    intros j tail. rewrite append_cons.
    replace (String.length (String c s) + j)%nat with (String.length s + S j)%nat
      by (simpl; lia).
    rewrite Hdigits. simpl.
    replace ((16 * acc + d) / 16)%N with acc
      by (apply (N.div_unique (16 * acc + d) 16 acc d); lia).
    replace ((16 * acc + d) mod 16)%N with d
      by (apply (N.mod_unique (16 * acc + d) 16 acc d); lia).
    by rewrite Hchar.
Qed.

(** Twenty-four digits 0-9 and a-f are the text of the ObjectId they are
    cast to. *)
Lemma toString_of_string (s : string) :
  String.length s = 24%nat → lower_hex s = true →
  ∃ id : ObjectId, ObjectIds.of_string s = Some id ∧ ObjectIds.toString id = s.
Proof.
  intros Hlen Hs. destruct (hex_digits_of_hex s 0 Hs) as (n & Hn & Hdigits).
  exists n. unfold ObjectIds.of_string, ObjectIds.toString.
  rewrite bool_decide_eq_false_2, bool_decide_eq_true_2 by lia. split; [done|].
  specialize (Hdigits 0%nat ""). rewrite Hlen, Nat.add_0_r in Hdigits.
  rewrite Hdigits. change (ObjectIds.hex_digits 0 0 (s +:+ "")) with (s +:+ "").
  clear. induction s as [|c s IH]; [done|].
  by rewrite append_cons, IH.
Qed.

Section creator.
Context `{!SanitizeHtml}.

(** A create request answered 200 has stored, under an id that was free,
    a post whose user is what the requester's id is cast to. *)
Lemma post_root_owner (req : Request) (author : User.t) (db0 : store)
    (id : ObjectId) (now : Z) (random : nat) :
  let created := posts.post_root id now random (Koa.fresh req (Some author) db0) in
  status (response created) = 200 →
  ∃ (post : Post.t) (owner : ObjectId),
    db0 !! id = None
    ∧ db created = <[id := post]> db0
    ∧ ObjectIds.of_string (User._id author) = Some owner
    ∧ Post.user post = Some (Owner.mk owner (User.username author)).
Proof.
  unfold posts.post_root, posts.checkLoggedIn, postsCtrl.write,
    postsCtrl.cast_user. simpl.
  destruct (Joi.validate _ _); [done|].
  destruct (postsCtrl.string_at "title" _); [|done].
  destruct (postsCtrl.string_at "body" _); [|done].
  destruct (postsCtrl.strings_at _ _); [|done].
  destruct (ObjectIds.of_string (User._id author)) as [owner|]; [|done]. simpl.
  unfold Model.save. simpl. destruct (db0 !! id) eqn:Hfree; [done|]. simpl.
  intros _. eexists _, owner. split_and!; [done|reflexivity|done|done].
Qed.

(** X19. A user whose id is written with 24 digits 0-9 and a-f can delete
    the post they created: the delete request is answered 204 and the
    store is again what it was before the post was created. *)
Theorem create_then_delete (req_w req_d : Request) (author : User.t) (db0 : store)
    (id : ObjectId) (now : Z) (random : nat) :
  String.length (User._id author) = 24%nat →
  lower_hex (User._id author) = true →
  ObjectIds.of_string (params_id req_d) = Some id →
  let created := posts.post_root id now random (Koa.fresh req_w (Some author) db0) in
  let deleted := posts.delete_id (Koa.fresh req_d (Some author) (db created)) in
  status (response created) = 200 →
  status (response deleted) = 204 ∧ db deleted = db0.
Proof.
  intros Hlen Hhex Hid created deleted Hcreated.
  destruct (post_root_owner req_w author db0 id now random Hcreated)
    as (post & owner & Hfree & Hdb & Hcast & Huser).
  destruct (toString_of_string _ Hlen Hhex) as (owner' & Hcast' & Htext).
  assert (owner' = owner) as -> by congruence.
  subst deleted. fold created in Hdb. unfold posts.delete_id.
  rewrite (owner_passes req_d author (db created) id post
             (Owner.mk owner (User.username author))); try done.
  - unfold postsCtrl.remove. simpl. rewrite Hid. simpl. split; [done|].
    rewrite Hdb. by apply delete_insert_id.
  - rewrite Hdb. apply lookup_insert_eq.
Qed.

End creator.

(** Alice creates post 99 and deletes it. *)
Lemma create_then_delete_witness :
  let created :=
    @posts.post_root Reference.sanitize 99 0 0
      (Koa.fresh Reference.create_hello (Some Reference.alice) Reference.go_posts) in
  let deleted :=
    posts.delete_id (Koa.fresh Reference.read_99 (Some Reference.alice) (db created)) in
  status (response deleted) = 204 ∧ db deleted = Reference.go_posts.
Proof.
  apply (@create_then_delete Reference.sanitize Reference.create_hello Reference.read_99
           Reference.alice Reference.go_posts 99%N 0 0%nat);
    vm_compute; reflexivity.
Defined.

(** ** What holds of every stored post *)

Lemma strings_at_strings (k : string) (input : gmap string value) (tags : list string) :
  input !! k = Some (VArray (VString <$> tags)) → postsCtrl.strings_at k input = Some tags.
Proof.
  intros Hk. unfold postsCtrl.strings_at. rewrite Hk. clear.
  induction tags as [|tag tags IH]; [done|]. rewrite fmap_cons. simpl. by rewrite IH.
Qed.

(** What passes the schema of [update] under title and under tags. *)
Lemma validate_update_schema (input : gmap string value) :
  Joi.validate postsCtrl.update_schema input = None →
  (∀ title : string, postsCtrl.string_at "title" input = Some title → title ≠ "")
  ∧ (∀ tags : list string,
       postsCtrl.strings_at "tags" input = Some tags → Forall (λ tag, tag ≠ "") tags).
Proof.
  intros [Hkeys _]%validate_None.
  pose proof (Hkeys _ (list_elem_of_here _ _)) as Htitle.
  pose proof (Hkeys _ (list_elem_of_further _ _ _
                         (list_elem_of_further _ _ _ (list_elem_of_here _ _)))) as Htags.
  unfold Joi.check_key in Htitle, Htags.
  cbn [Joi.name Joi.type Joi.required] in Htitle, Htags. split.
  - intros title. unfold postsCtrl.string_at.
    destruct (input !! "title") as [v|]; [|done].
    apply check_string_None in Htitle as (s & -> & ?). by intros [= <-].
  - intros tags Hat. destruct (input !! "tags") as [v|] eqn:Hv.
    + apply check_strings_None in Htags as (tags' & -> & ?).
      rewrite (strings_at_strings _ _ tags') in Hat by done. by simplify_eq.
    + unfold postsCtrl.strings_at in Hat. by rewrite Hv in Hat.
Qed.

Section settled.
Context `{!SanitizeHtml, !Driver}.

Lemma settled_with_count (id : ObjectId) (post : Post.t) (c : Z) :
  settled id post → 0 <= c → settled id (Post.with_count (Some c) post).
Proof.
  intros (Hwf & _ & ? & ? & ?) Hc.
  split_and!; [by apply well_formed_with_count|by eexists|done..].
Qed.

(** Every route keeps the stored documents settled. *)
Lemma serve_settled (r : served) (req : Request) (user : option User.t) (db0 : store) :
  map_Forall settled db0 →
  map_Forall settled (db (serve r (Koa.fresh req user db0))).
Proof.
  intros Hall. destruct r as [|id now random| | |random]; simpl.
  - unfold posts.get_root. by rewrite list_db.
  - unfold posts.post_root, posts.checkLoggedIn, postsCtrl.write. simpl.
    destruct user as [author|]; [|done]. simpl.
    destruct (Joi.validate _ _) eqn:Hvalid; [done|].
    apply validate_write_schema in Hvalid as (title & raw & tags & Hinput & ? & ? & ?).
    rewrite Hinput, strings_at_create. unfold postsCtrl.string_at.
    rewrite create_input_title, create_input_body. unfold postsCtrl.cast_user.
    destruct (ObjectIds.of_string (User._id author)); [|done]. simpl.
    unfold Model.save. simpl. destruct (db0 !! id); [done|]. simpl.
    apply map_Forall_insert_2; [|done].
    split_and!; [by split|by eexists|done|apply parseImageToBody_not_empty|done].
  - unfold posts.get_id, postsCtrl.getPostById, ObjectIds.isValid, Model.findById.
    simpl. destruct (ObjectIds.of_string _) as [id|]; [|done]. simpl.
    destruct (db0 !! id) as [post|] eqn:Hpost; [|done].
    pose proof (Hall id post Hpost) as Hsettled.
    destruct Hsettled as ([Hid Hcount] & Hsome & ?).
    destruct (read_db (Koa.set_post post (Koa.called (FindById id) db0
                         (Koa.fresh req user db0))) post eq_refl)
      as (c & Hc & ->); [simpl; by rewrite Hid|]. simpl.
    apply map_Forall_insert_2; [|done]. rewrite Hid.
    apply settled_with_count; [done|].
    destruct Hc as [[_ ->]|[(c0 & ? & ? & ->)|(c0 & Hc0 & ? & ->)]]; [lia|lia|].
    rewrite Hc0 in Hcount. lia.
  - unfold posts.delete_id, posts.checkLoggedIn, postsCtrl.getPostById,
      ObjectIds.isValid, postsCtrl.checkOwnPost, postsCtrl.remove. simpl.
    repeat (case_match; simpl; try done).
    by apply map_Forall_delete.
  - unfold posts.patch_id, posts.checkLoggedIn, postsCtrl.getPostById,
      ObjectIds.isValid, postsCtrl.checkOwnPost, Model.findById. simpl.
    destruct user; [|done].
    destruct (ObjectIds.of_string _) as [id|] eqn:Hid; [|done]. simpl.
    destruct (db0 !! id) as [post|] eqn:Hpost; [|done]. simpl.
    destruct (Post.user post); [|done]. case_bool_decide; [done|].
    destruct (Joi.validate postsCtrl.update_schema (request_body req)) eqn:Hvalid.
    { unfold postsCtrl.update. simpl. by rewrite Hvalid. }
    edestruct (update_found random
                 (Koa.set_post post
                    (Koa.called (FindById id) db0 (Koa.fresh req (Some t) db0)))
                 id post)
      as (nextData & Htitle & _ & Htags & Himage & Hcount & _ & _ & ->); [done..|].
    simpl in *. apply map_Forall_insert_2; [|done].
    destruct (Hall id post Hpost) as ([? ?] & ? & ? & ? & ?).
    destruct (validate_update_schema _ Hvalid) as [Htitles Htagss].
    unfold Model.apply_patch. rewrite Htitle, Htags, Himage, Hcount.
    split_and!; simpl; [by split|done| |apply parseImageToBody_not_empty|].
    + destruct (postsCtrl.string_at "title" _) eqn:E; simpl; [by apply Htitles|done].
    + destruct (postsCtrl.strings_at "tags" _) eqn:E; simpl; [by apply Htagss|done].
Qed.

(** X20. In every store the routes can produce from the empty one, each
    post is stored under its own id, has a counter that is not negative,
    a title and an image that are not empty, and no empty tag. *)
Theorem reachable_settled (db0 : store) (id : ObjectId) (post : Post.t) :
  reachable db0 → db0 !! id = Some post →
  Post._id post = id
  ∧ (∃ c : Z, Post.count post = Some c ∧ 0 <= c)
  ∧ Post.title post ≠ ""
  ∧ Post.image post ≠ ""
  ∧ Forall (λ tag, tag ≠ "") (Post.tags post).
Proof.
  intros Hreach Hpost.
  assert (map_Forall settled db0) as Hall.
  { clear Hpost. induction Hreach as [|r req user db0 _ IH].
    - apply map_Forall_empty.
    - by apply serve_settled. }
  destruct (Hall id post Hpost) as ([Hid Hcount] & [c Hc] & ? & ? & ?).
  split_and!; [done| |done..]. exists c. split; [done|]. by rewrite Hc in Hcount.
Qed.

End settled.

(** The store after alice's create request. *)
Lemma reachable_settled_witness :
  let created :=
    @posts.post_root Reference.sanitize 99 0 0
      (Koa.fresh Reference.create_hello (Some Reference.alice) ∅) in
  ∃ post : Post.t,
    db created !! 99%N = Some post
    ∧ Post._id post = 99%N
    ∧ (∃ c : Z, Post.count post = Some c ∧ 0 <= c)
    ∧ Post.title post ≠ "" ∧ Post.image post ≠ "".
Proof.
  intros created.
  assert (@reachable Reference.sanitize Reference.driver (db created)) as Hreach.
  { exact (@reachable_serve Reference.sanitize Reference.driver (PostRoot 99 0 0)
             Reference.create_hello (Some Reference.alice) ∅
             (@reachable_empty Reference.sanitize Reference.driver)). }
  assert (is_Some (db created !! 99%N)) as [post Hpost] by (vm_compute; eauto).
  destruct (@reachable_settled Reference.sanitize Reference.driver (db created) 99%N
              post Hreach Hpost) as (Hid & Hcount & Htitle & Himage & _).
  exists post. split_and!; [exact Hpost | exact Hid | exact Hcount | exact Htitle
                            | exact Himage].
Defined.

(** ** Creating and counting *)

Lemma countDocuments_insert (q : Filter.t) (db0 : store) (id : ObjectId) (post : Post.t) :
  db0 !! id = None →
  Model.countDocuments q (<[id := post]> db0)
  = ((if Model.matches q post then 1 else 0) + Model.countDocuments q db0)%nat.
Proof.
  intros Hfree. unfold Model.countDocuments.
  rewrite !selected_matching, (map_to_list_insert db0 id post Hfree), fmap_cons. simpl.
  destruct (Model.matches q post) eqn:Hmatch.
  - by rewrite filter_cons_True.
  - rewrite filter_cons_False; [done|]. by rewrite Hmatch.
Qed.

Section counting.
Context `{!SanitizeHtml, !Driver}.

(** X21. A post that was just created counts as one more match for every
    query it matches and for no other: the Last-Page of a list request
    that follows is computed from the number of matches before, plus
    one when the new post matches the query of the request. *)
Theorem create_is_counted (req_w req_l : Request) (author reader : option User.t)
    (db0 : store) (id : ObjectId) (now : Z) (random : nat) (p : Z) :
  let created := posts.post_root id now random (Koa.fresh req_w author db0) in
  status (response created) = 200 →
  page_of req_l = Js.Num p → 1 <= p →
  ∃ post : Post.t,
    body (response created) = OfPost post
    ∧ Last_Page (response (postsCtrl.list (Koa.fresh req_l reader (db created))))
      = Some (Js.ceil_div
                (Z.of_nat ((if Model.matches (query_of req_l) post then 1 else 0)
                           + Model.countDocuments (query_of req_l) db0)) 20).
Proof.
  intros created Hcreated Hpage Hp.
  destruct author as [author|]; [|done].
  destruct (post_root_owner req_w author db0 id now random Hcreated)
    as (post & owner & Hfree & Hdb & _).
  destruct (post_root_created req_w (Some author) db0 id now random Hcreated)
    as (post' & Hbody & _ & _ & Hdb' & _).
  fold created in Hdb, Hdb', Hbody.
  assert (post' = post) as ->.
  { rewrite Hdb in Hdb'. apply (f_equal (lookup id)) in Hdb'.
    rewrite !lookup_insert_eq in Hdb'. by simplify_eq. }
  exists post. split; [done|].
  rewrite (list_served req_l reader (db created) p _ Hpage Hp eq_refl). simpl.
  fold (Model.countDocuments (query_of req_l) (db created)).
  by rewrite Hdb, countDocuments_insert.
Qed.

End counting.

(** The posts tagged go after one more is created: twenty-six. *)
Lemma create_is_counted_witness :
  let created :=
    @posts.post_root Reference.sanitize 99 0 0
      (Koa.fresh Reference.create_hello (Some Reference.alice) Reference.go_posts) in
  Last_Page (response (@postsCtrl.list Reference.sanitize Reference.driver
                         (Koa.fresh (Reference.go_page "1") None (db created))))
  = Some 2.
Proof.
  intros created.
  assert (status (response created) = 200) as Hcreated by (vm_compute; reflexivity).
  assert (page_of (Reference.go_page "1") = Js.Num 1) as Hpage by (vm_compute; reflexivity).
  destruct (@create_is_counted Reference.sanitize Reference.driver Reference.create_hello
              (Reference.go_page "1") (Some Reference.alice) None Reference.go_posts
              99%N 0 0%nat 1 Hcreated Hpage ltac:(lia)) as (post & Hbody & Hlast).
  fold created in Hlast. rewrite Hlast.
  assert (post = Post.mk 99 "Hello" "<p>hi</p>" (Some 0)
                   (postsCtrl.parseImageToBody 0 (Some "<p>hi</p>")) ["go"] 0
                   (Some (Owner.mk 10 "alice"))) as ->.
  { vm_compute in Hbody. injection Hbody as <-. vm_compute. reflexivity. }
  vm_compute. reflexivity.
Defined.
